(** * The Education-Health Connection: narrative-viz.js

    A shallow embedding of the class [NarrativeVisualization] of
    [narrative-viz.js] and of the d3 functions it calls, followed by the
    properties of the filter engine, the scene navigation, the renders, the
    scales, the colour vocabulary, the trend line and the annotations.

    JavaScript numbers are IEEE binary64 values.  The program is written
    over an interface [Number] and run on the kernel's primitive floats,
    which are binary64 values with the operations a browser computes. *)

From Stdlib Require Import ZArith List String Ascii Bool Floats Lia.
Import ListNotations.

Set Implicit Arguments.

(* ================================================================== *)
(** * The fragment of JavaScript the program uses *)
(* ================================================================== *)

Module JS.

(** Arithmetic and comparison of JavaScript numbers. *)
Class Number (N : Type) : Type := {
  of_Z : Z -> N;                 (* an integer literal *)
  NaN : N;
  num_add : N -> N -> N;
  num_sub : N -> N -> N;
  num_mul : N -> N -> N;
  num_div : N -> N -> N;
  num_sqrt : N -> N;             (* Math.sqrt *)
  num_eqb : N -> N -> bool;      (* [===] on two numbers *)
  num_ltb : N -> N -> bool;      (* [<]  *)
  num_leb : N -> N -> bool       (* [<=] *)
}.

Declare Scope js_scope.
Delimit Scope js_scope with js.
Infix "+" := num_add : js_scope.
Infix "-" := num_sub : js_scope.
Infix "*" := num_mul : js_scope.
Infix "/" := num_div : js_scope.
Infix "===" := num_eqb (at level 70, no associativity) : js_scope.
Infix "<?" := num_ltb : js_scope.
Infix "<=?" := num_leb : js_scope.

(** ** binary64: the numbers a browser computes with *)

Definition float_of_Z (z : Z) : float :=
  SF2Prim (binary_normalize prec emax z 0 false).

#[export] Instance binary64 : Number float := {
  of_Z := float_of_Z;
  NaN := PrimFloat.nan;
  num_add := PrimFloat.add;
  num_sub := PrimFloat.sub;
  num_mul := PrimFloat.mul;
  num_div := PrimFloat.div;
  num_sqrt := PrimFloat.sqrt;
  num_eqb := PrimFloat.eqb;
  num_ltb := PrimFloat.ltb;
  num_leb := PrimFloat.leb
}.

Section Values.
Context {N : Type} `{Number N}.
Local Open Scope js_scope.

(** A decimal literal [m / 10^k], such as [78.86 = dec 7886 2].  On binary64
    the division of the two integers rounds to the double the literal
    denotes. *)
Definition dec (m : Z) (k : nat) : N := of_Z m / of_Z (10 ^ Z.of_nat k).

(** A number is finite when [x - x] is zero ([Infinity - Infinity] and
    [NaN - NaN] are [NaN]).  This is [Number.isFinite]. *)
Definition isFinite (x : N) : bool := (x - x) === of_Z 0.

(** [isNaN]: the only number that differs from itself. *)
Definition isNaN (x : N) : bool := negb (x === x).

(** The value held by a numeric column of a record: a number, [null], or
    [undefined] when the record has no such key. *)
Inductive jsnum : Type :=
| Undefined
| Null
| Num (x : N).

(** ToNumber, the unary [+]. *)
Definition to_number (v : jsnum) : N :=
  match v with
  | Undefined => NaN
  | Null => of_Z 0
  | Num x => x
  end.

(** ToBoolean on a numeric value: [undefined], [null], [0] and [NaN] are
    falsy. *)
Definition num_truthy (v : jsnum) : bool :=
  match v with
  | Num x => negb (x === of_Z 0) && (x === x)
  | _ => false
  end.

(** [v || fallback]. *)
Definition num_or (v : jsnum) (fallback : N) : jsnum :=
  if num_truthy v then v else Num fallback.

(** [v !== null]: true of [undefined] as well. *)
Definition not_null (v : jsnum) : bool :=
  match v with
  | Null => false
  | _ => true
  end.

(** [v == null], the loose test d3 uses: [null] or [undefined]. *)
Definition is_nullish (v : jsnum) : bool :=
  match v with
  | Num _ => false
  | _ => true
  end.

(** [v >= n] and [v > n] with a number on the right: ToNumber, then
    compare. *)
Definition num_ge (v : jsnum) (n : N) : bool := n <=? to_number v.
Definition num_gt (v : jsnum) (n : N) : bool := n <? to_number v.
Definition num_lt (v : jsnum) (n : N) : bool := to_number v <? n.

(** [v === n] with a number on the right: no conversion. *)
Definition num_strict_eq (v : jsnum) (n : N) : bool :=
  match v with
  | Num x => x === n
  | _ => false
  end.

(** [Math.max(a, b)]: [NaN] when either argument is. *)
Definition Math_max (a b : N) : N :=
  if isNaN a || isNaN b then NaN else if a <? b then b else a.

End Values.

Arguments jsnum N : clear implicits.

(** The value held by a text column of a record. *)
Inductive jsstr : Type :=
| SUndefined
| SNull
| Str (s : string).

Definition jsstr_eqb (a b : jsstr) : bool :=
  match a, b with
  | SUndefined, SUndefined => true
  | SNull, SNull => true
  | Str s, Str t => String.eqb s t
  | _, _ => false
  end.

Definition str_truthy (v : jsstr) : bool :=
  match v with
  | Str s => negb (String.eqb s EmptyString)
  | _ => false
  end.

(** [a || b] on text values. *)
Definition str_or (a b : jsstr) : jsstr := if str_truthy a then a else b.

(** A value found in a filter criteria object: absent, [null], a string (what
    a form control yields) or an integer-valued number below [10^21] in
    magnitude (so that its decimal string is its digits). *)
Inductive value : Type :=
| VUndefined
| VNull
| VStr (s : string)
| VInt (z : Z).

Definition truthy (v : value) : bool :=
  match v with
  | VStr s => negb (String.eqb s EmptyString)
  | VInt z => negb (Z.eqb z 0)
  | _ => false
  end.

(** [field === v] for a text column against a criteria value. *)
Definition str_strict_eq (field : jsstr) (v : value) : bool :=
  match field, v with
  | SUndefined, VUndefined => true
  | SNull, VNull => true
  | Str s, VStr t => String.eqb s t
  | _, _ => false
  end.

(** [v !== 'all'] *)
Definition not_all (v : value) : bool :=
  match v with
  | VStr s => negb (String.eqb s "all")
  | _ => true
  end.

(** ** parseInt(string) with no radix

    Leading white space is skipped (the ASCII white space and line
    terminators; strings here are byte strings), then an optional sign, then
    [0x] or [0X] selects radix 16, then the longest run of digits is read.
    No digit at all gives [NaN]. *)

Definition is_space (c : ascii) : bool :=
  let n := nat_of_ascii c in
  Nat.eqb n 9 || Nat.eqb n 10 || Nat.eqb n 11 || Nat.eqb n 12
  || Nat.eqb n 13 || Nat.eqb n 32.

Fixpoint trim_start (s : string) : string :=
  match s with
  | String c rest => if is_space c then trim_start rest else s
  | EmptyString => s
  end.

(** The value of [c] as a digit of the radix, if it is one. *)
Definition digit_of (radix : Z) (c : ascii) : option Z :=
  let n := Z.of_nat (nat_of_ascii c) in
  let d :=
    (if (48 <=? n) && (n <=? 57) then Some (n - 48)
     else if (97 <=? n) && (n <=? 122) then Some (n - 87)
     else if (65 <=? n) && (n <=? 90) then Some (n - 55)
     else None)%Z in
  match d with
  | Some k => if (k <? radix)%Z then Some k else None
  | None => None
  end.

(** The longest prefix of digits, read left to right; [None] when the first
    character is not a digit. *)
Fixpoint digits (radix : Z) (acc : option Z) (s : string) : option Z :=
  match s with
  | String c rest =>
      match digit_of radix c with
      | Some d =>
          digits radix
            (Some (match acc with Some a => a * radix + d | None => d end)%Z)
            rest
      | None => acc
      end
  | EmptyString => acc
  end.

Definition strip_sign (s : string) : Z * string :=
  match s with
  | String "-"%char rest => ((-1)%Z, rest)
  | String "+"%char rest => (1%Z, rest)
  | _ => (1%Z, s)
  end.

Definition strip_hex (s : string) : Z * string :=
  match s with
  | String "0"%char (String "x"%char rest) => (16%Z, rest)
  | String "0"%char (String "X"%char rest) => (16%Z, rest)
  | _ => (10%Z, s)
  end.

Definition parseInt_string {N} `{Number N} (s : string) : N :=
  let '(sign, s1) := strip_sign (trim_start s) in
  let '(radix, s2) := strip_hex s1 in
  match digits radix None s2 with
  | Some m => of_Z (sign * m)
  | None => NaN
  end.

(** [parseInt(v)]: ToString, then the above.  ["undefined"] and ["null"]
    start with no digit. *)
Definition parseInt {N} `{Number N} (v : value) : N :=
  match v with
  | VStr s => parseInt_string s
  | VInt z => of_Z z
  | VUndefined | VNull => NaN
  end.

End JS.

(* ================================================================== *)
(** * The d3 functions the program calls

    d3 is the library the page loads (d3 v7: d3-array, d3-scale,
    d3-interpolate).  The functions below follow its definitions on the
    values the program passes: numbers, [null] and [undefined]. *)
(* ================================================================== *)

Module D3.
Import JS.

Section Arrays.
Context {N : Type} `{Number N}.
Local Open Scope js_scope.

(** One turn of the loop of [d3.extent]: [null] and [undefined] are skipped;
    the first value with [value >= value] starts both bounds; afterwards
    [if (min > value) min = value; if (max < value) max = value]. *)
Definition extent_step (acc : option (N * N)) (v : jsnum N) : option (N * N) :=
  match v with
  | Num x =>
      match acc with
      | None => if x <=? x then Some (x, x) else None
      | Some (mn, mx) =>
          Some (if x <? mn then x else mn, if mx <? x then x else mx)
      end
  | _ => acc
  end.

(** [d3.extent(values, valueof)]: [[min, max]], both [undefined] when no
    value counts. *)
Definition extent {A : Type} (values : list A) (valueof : A -> jsnum N)
  : jsnum N * jsnum N :=
  match fold_left (fun acc d => extent_step acc (valueof d)) values None with
  | Some (mn, mx) => (Num mn, Num mx)
  | None => (Undefined, Undefined)
  end.

(** One turn of [d3.max]:
    [max < value || (max === undefined && value >= value)]. *)
Definition max_step (acc : option N) (v : jsnum N) : option N :=
  match v with
  | Num x =>
      match acc with
      | None => if x <=? x then Some x else None
      | Some m => if m <? x then Some x else Some m
      end
  | _ => acc
  end.

Definition max {A : Type} (values : list A) (valueof : A -> jsnum N)
  : jsnum N :=
  match fold_left (fun acc d => max_step acc (valueof d)) values None with
  | Some m => Num m
  | None => Undefined
  end.

(** One turn of [d3.mean]: a value that is not nullish and satisfies
    [value >= value] is counted and added. *)
Definition mean_step (acc : Z * N) (v : jsnum N) : Z * N :=
  match v with
  | Num x => if x <=? x then ((fst acc + 1)%Z, snd acc + x) else acc
  | _ => acc
  end.

(** [d3.mean(values, valueof)]: [if (count) return sum / count], and
    [undefined] otherwise. *)
Definition mean {A : Type} (values : list A) (valueof : A -> jsnum N)
  : jsnum N :=
  let '(count, sum) :=
    fold_left (fun acc d => mean_step acc (valueof d)) values (0%Z, of_Z 0) in
  if Z.eqb count 0 then Undefined else Num (sum / of_Z count).

End Arrays.

Section Scales.
Context {N : Type} `{Number N}.
Local Open Scope js_scope.

(** d3-scale, continuous.js:
    [(b -= (a = +a)) ? x => (x - a) / b : constant(isNaN(b) ? NaN : 0.5)]. *)
Definition normalize (a b : N) : N -> N :=
  let b' := b - a in
  if num_truthy (Num b') then fun x => (x - a) / b'
  else fun _ => if isNaN b' then NaN else dec 5 1.

(** d3-interpolate, number.js: [t => a * (1 - t) + b * t]. *)
Definition interpolateNumber (a b : N) : N -> N :=
  fun t => a * (of_Z 1 - t) + b * t.

(** continuous.js, [bimap] on a two-point domain and range. *)
Definition bimap (d0 d1 r0 r1 : N) : N -> N :=
  if d1 <? d0
  then fun x => interpolateNumber r1 r0 (normalize d1 d0 x)
  else fun x => interpolateNumber r0 r1 (normalize d0 d1 x).

(** A continuous scale with a two-point domain and range and no clamping:
    what [d3.scaleLinear()] and [d3.scaleSqrt()] build from
    [.domain([..]).range([..])]. *)
Record continuous : Type := {
  domain : N * N;
  range : N * N;
  transform : N -> N
}.

(** [scale.domain(_)] stores [Array.from(_, number)]: each bound goes
    through unary [+]. *)
Definition coerce_domain (d : jsnum N * jsnum N) : N * N :=
  (to_number (fst d), to_number (snd d)).

(** Applying the scale: [x == null || isNaN(x = +x) ? unknown : ...], the
    unknown value being [undefined]. *)
Definition scale (s : continuous) (x : jsnum N) : jsnum N :=
  if is_nullish x || isNaN (to_number x) then Undefined
  else
    let t := transform s in
    Num (bimap (t (fst (domain s))) (t (snd (domain s)))
           (fst (range s)) (snd (range s)) (t (to_number x))).

Definition scaleLinear (d : jsnum N * jsnum N) (r : N * N) : continuous :=
  {| domain := coerce_domain d; range := r; transform := fun x => x |}.

(** pow.js: [x < 0 ? -Math.sqrt(-x) : Math.sqrt(x)]. *)
Definition transformSqrt (x : N) : N :=
  if x <? of_Z 0 then of_Z 0 - num_sqrt (of_Z 0 - x) else num_sqrt x.

Definition scaleSqrt (d : jsnum N * jsnum N) (r : N * N) : continuous :=
  {| domain := coerce_domain d; range := r; transform := transformSqrt |}.

End Scales.

(** ** d3.scaleOrdinal

    The scale keeps its domain as a growing array: an input that is not in
    the domain yet is appended to it (the implicit domain), and the output
    is [range[i % range.length]] for the input's index [i]. *)

Record ordinal : Type := {
  o_domain : list jsstr;
  o_range : list string
}.

Fixpoint index_of (d : jsstr) (dom : list jsstr) : option nat :=
  match dom with
  | [] => None
  | k :: rest =>
      if jsstr_eqb k d then Some 0%nat
      else option_map S (index_of d rest)
  end.

Definition range_at (s : ordinal) (i : nat) : jsstr :=
  match nth_error (o_range s) (i mod List.length (o_range s)) with
  | Some c => Str c
  | None => SUndefined
  end.

(** [scale(d)]: the colour and the scale afterwards. *)
Definition ordinal_apply (s : ordinal) (d : jsstr) : jsstr * ordinal :=
  match index_of d (o_domain s) with
  | Some i => (range_at s i, s)
  | None =>
      (range_at s (List.length (o_domain s)),
       {| o_domain := o_domain s ++ [d]; o_range := o_range s |})
  end.

End D3.

(* ================================================================== *)
(** * class NarrativeVisualization *)
(* ================================================================== *)

Module Viz.
Import JS.

Section Program.
Context {N : Type} `{Number N}.
Local Open Scope string_scope.

(** ** Data *)

(** One record of [data/processed_data.json] or of [getEmbeddedData()].  A
    column whose key the record lacks reads [undefined]. *)
Record observation : Type := {
  country_name : jsstr;
  country_code : jsstr;
  year : jsnum N;
  region : jsstr;
  income_group : jsstr;
  income_per_capita : jsnum N;
  hiv_incidence_rate : jsnum N;
  adult_literacy_rate : jsnum N;
  secondary_school_enrollment : jsnum N;
  condom_use_average : jsnum N;
  total_population : jsnum N;
  life_expectancy : jsnum N
}.

(** [d[name]] for the name of a plotted column; any other key reads
    [undefined] (the text columns are never plotted). *)
Definition field (name : string) (d : observation) : jsnum N :=
  if String.eqb name "year" then year d
  else if String.eqb name "income_per_capita" then income_per_capita d
  else if String.eqb name "hiv_incidence_rate" then hiv_incidence_rate d
  else if String.eqb name "adult_literacy_rate" then adult_literacy_rate d
  else if String.eqb name "secondary_school_enrollment"
       then secondary_school_enrollment d
  else if String.eqb name "condom_use_average" then condom_use_average d
  else if String.eqb name "total_population" then total_population d
  else if String.eqb name "life_expectancy" then life_expectancy d
  else Undefined.

(** The argument of [filterData]; [{}] is [no_filters]. *)
Record filters : Type := {
  f_year : value;
  f_region : value;
  f_income : value
}.

Definition no_filters : filters :=
  {| f_year := VUndefined; f_region := VUndefined; f_income := VUndefined |}.

(** ** What a render leaves in an [svg] *)

(** A [circle.country-circle] once its entering transition has ended: the
    datum bound to it, its radius and its fill. *)
Record circle : Type := {
  datum : observation;
  r : jsnum N;
  fill : jsstr
}.

(** The content of [#viz-k] after [renderScene]k: the placeholder text, or
    the chart with the domains of its three scales, its circles, the points
    of the trend line when one is drawn, and the legend entries (colour and
    text).  Axes, grid lines, tooltips, crosshairs and the annotations that
    [renderScene1] schedules with [setTimeout] are left out. *)
Inductive rendering : Type :=
| NoData (message : string)
| Chart (xDomain yDomain rDomain : N * N)
        (circles : list circle)
        (trend : option (list (jsnum N * jsnum N)))
        (legend : list (string * string)).

(** ** State: the fields of [this] and the page *)

Record state : Type := {
  (* this *)
  currentScene : Z;
  data : option (list observation);          (* [null] until loaded *)
  colors_income : D3.ordinal;
  (* document *)
  scene_hidden : Z -> option bool;  (* class [hidden] of [#scene-k]; [None]: no such element *)
  prev_disabled : bool;
  next_disabled : bool;
  dot_active : list bool;           (* class [active] of each [.scene-dot] *)
  year_slider_1 : option string;    (* value of the control; [None]: no such element *)
  region_select_1 : option string;
  year_slider_2 : option string;
  education_metric : option string;
  svg : Z -> option rendering       (* content of [#viz-k] *)
}.

Definition set_currentScene (n : Z) (s : state) : state :=
  {| currentScene := n; data := data s; colors_income := colors_income s;
     scene_hidden := scene_hidden s; prev_disabled := prev_disabled s;
     next_disabled := next_disabled s; dot_active := dot_active s;
     year_slider_1 := year_slider_1 s; region_select_1 := region_select_1 s;
     year_slider_2 := year_slider_2 s; education_metric := education_metric s;
     svg := svg s |}.

Definition set_data (ds : option (list observation)) (s : state) : state :=
  {| currentScene := currentScene s; data := ds;
     colors_income := colors_income s;
     scene_hidden := scene_hidden s; prev_disabled := prev_disabled s;
     next_disabled := next_disabled s; dot_active := dot_active s;
     year_slider_1 := year_slider_1 s; region_select_1 := region_select_1 s;
     year_slider_2 := year_slider_2 s; education_metric := education_metric s;
     svg := svg s |}.

Definition set_colors_income (o : D3.ordinal) (s : state) : state :=
  {| currentScene := currentScene s; data := data s; colors_income := o;
     scene_hidden := scene_hidden s; prev_disabled := prev_disabled s;
     next_disabled := next_disabled s; dot_active := dot_active s;
     year_slider_1 := year_slider_1 s; region_select_1 := region_select_1 s;
     year_slider_2 := year_slider_2 s; education_metric := education_metric s;
     svg := svg s |}.

Definition set_scene_hidden (h : Z -> option bool) (s : state) : state :=
  {| currentScene := currentScene s; data := data s;
     colors_income := colors_income s;
     scene_hidden := h; prev_disabled := prev_disabled s;
     next_disabled := next_disabled s; dot_active := dot_active s;
     year_slider_1 := year_slider_1 s; region_select_1 := region_select_1 s;
     year_slider_2 := year_slider_2 s; education_metric := education_metric s;
     svg := svg s |}.

Definition set_navigation (p n : bool) (dots : list bool) (s : state) : state :=
  {| currentScene := currentScene s; data := data s;
     colors_income := colors_income s;
     scene_hidden := scene_hidden s; prev_disabled := p;
     next_disabled := n; dot_active := dots;
     year_slider_1 := year_slider_1 s; region_select_1 := region_select_1 s;
     year_slider_2 := year_slider_2 s; education_metric := education_metric s;
     svg := svg s |}.

Definition set_svg (f : Z -> option rendering) (s : state) : state :=
  {| currentScene := currentScene s; data := data s;
     colors_income := colors_income s;
     scene_hidden := scene_hidden s; prev_disabled := prev_disabled s;
     next_disabled := next_disabled s; dot_active := dot_active s;
     year_slider_1 := year_slider_1 s; region_select_1 := region_select_1 s;
     year_slider_2 := year_slider_2 s; education_metric := education_metric s;
     svg := f |}.

(** ** Methods run in a state and end by returning or by throwing *)

Inductive outcome (A : Type) : Type :=
| Returned (a : A) (s : state)
| Thrown (s : state).          (* a TypeError; [s] is the state it leaves *)

Arguments Thrown {A} s.

Definition M (A : Type) : Type := state -> outcome A.

Definition ret {A} (a : A) : M A := fun s => Returned a s.

Definition bind {A B} (m : M A) (k : A -> M B) : M B :=
  fun s =>
    match m s with
    | Returned a s' => k a s'
    | Thrown s' => Thrown s'
    end.

Definition get : M state := fun s => Returned s s.
Definition modify (f : state -> state) : M unit := fun s => Returned tt (f s).
Definition throw {A} : M A := fun s => Thrown s.

(** The state a call ends in, however it ends. *)
Definition final {A} (o : outcome A) : state :=
  match o with
  | Returned _ s => s
  | Thrown s => s
  end.

(** What a call returned, if it did. *)
Definition returned {A} (o : outcome A) : option A :=
  match o with
  | Returned a _ => Some a
  | Thrown _ => None
  end.

(** Reading a rendering. *)
Definition circles_of (c : option rendering) : list circle :=
  match c with
  | Some (Chart _ _ _ cs _ _) => cs
  | _ => []
  end.

Definition legend_of (c : option rendering) : list (string * string) :=
  match c with
  | Some (Chart _ _ _ _ _ l) => l
  | _ => []
  end.

Definition domains_of (c : option rendering) : list (N * N) :=
  match c with
  | Some (Chart x y r _ _ _) => [x; y; r]
  | _ => []
  end.

Definition is_placeholder (c : option rendering) : bool :=
  match c with
  | Some (NoData _) => true
  | _ => false
  end.

Local Notation "x <- m ;; k" := (bind m (fun x => k))
  (at level 61, m at next level, right associativity).
Local Notation "m ;;; k" := (bind m (fun _ => k))
  (at level 61, right associativity).

Fixpoint mapM {A B} (f : A -> M B) (l : list A) : M (list B) :=
  match l with
  | [] => ret []
  | a :: rest => b <- f a ;; bs <- mapM f rest ;; ret (b :: bs)
  end.

Local Open Scope js_scope.

(** ** Navigation *)

(** [document.querySelector('#scene-k').classList.add/remove('hidden')]:
    [querySelector] gives [null] when the page has no such element, and
    reading [.classList] of [null] throws. *)
Definition classList_hidden (k : Z) (hidden : bool) : M unit :=
  s <- get ;;
  match scene_hidden s k with
  | Some _ =>
      modify (set_scene_hidden
                (fun j => if Z.eqb j k then Some hidden else scene_hidden s j))
  | None => throw
  end.

Definition updateNavigation : M unit :=
  this <- get ;;
  modify (set_navigation
            (Z.eqb (currentScene this) 1)
            (Z.eqb (currentScene this) 3)
            (map (fun index => Z.eqb (Z.of_nat index + 1) (currentScene this))
                 (seq 0 (List.length (dot_active this))))).

(** ** The filter engine *)

(** [[...this.data]]: spreading [null] throws. *)
Definition spread (a : option (list observation)) : M (list observation) :=
  match a with
  | Some l => ret l
  | None => throw
  end.

Definition filterData (fs : filters) : M (list observation) :=
  this <- get ;;
  filtered <- spread (data this) ;;
  (* Apply filters *)
  let filtered :=
    if truthy (f_year fs)
    then filter (fun d => num_strict_eq (year d) (parseInt (f_year fs)))
           filtered
    else filtered in
  let filtered :=
    if truthy (f_region fs) && not_all (f_region fs)
    then filter (fun d => str_strict_eq (region d) (f_region fs)) filtered
    else filtered in
  let filtered :=
    if truthy (f_income fs) && not_all (f_income fs)
    then filter (fun d => str_strict_eq (income_group d) (f_income fs))
           filtered
    else filtered in
  (* Remove records with missing key data *)
  let filtered :=
    filter (fun d =>
              let hasBasicData :=
                not_null (income_per_capita d) || not_null (life_expectancy d)
              in hasBasicData)
      filtered in
  ret filtered.

(** ** Pieces of a render *)

(** [this.margin], [this.width], [this.height]. *)
Definition width : N := of_Z 1100 - of_Z 90 - of_Z 70.
Definition height : N := of_Z 500 - of_Z 50 - of_Z 90.

(** [hideLoading(sceneId)]: [document.getElementById] gives [null] for a
    missing scene and [scene.querySelector] then throws; the two children
    are touched under [if]. *)
Definition hideLoading (k : Z) : M unit :=
  s <- get ;;
  match scene_hidden s k with
  | Some _ => ret tt
  | None => throw
  end.

(** [control?.value || fallback] *)
Definition value_or (control : option string) (fallback : string) : string :=
  match control with
  | Some v => if String.eqb v EmptyString then fallback else v
  | None => fallback
  end.

(** [this.colors.income(g)]: the ordinal scale is one object shared by every
    render, and a call may extend its domain. *)
Definition income_color (g : jsstr) : M jsstr :=
  s <- get ;;
  let '(c, o) := D3.ordinal_apply (colors_income s) g in
  modify (set_colors_income o) ;;;
  ret c.

(** [d.total_population || 1000000], the population the radius scale is
    fed. *)
Definition population (d : observation) : jsnum N :=
  num_or (total_population d) (of_Z 1000000).

(** The circles of a scene, all entering since the [svg] was emptied: fill
    from [this.colors.income(d.income_group)], final radius
    [rScale(d.total_population || 1000000)]. *)
Definition draw_circles (rScale : D3.continuous) (ds : list observation)
  : M (list circle) :=
  mapM (fun d =>
          c <- income_color (income_group d) ;;
          ret {| datum := d;
                 r := D3.scale rScale (population d);
                 fill := c |})
       ds.

Definition population_extent (ds : list observation) : jsnum N * jsnum N :=
  D3.extent ds population.

(** [addIncomeLegend]: colour and text of each entry; where the legend is
    placed in each scene is left out. *)
Definition addIncomeLegend : list (string * string) :=
  let incomeGroups :=
    [ ("High income", "#0ea5e9");
      ("Upper middle income", "#059669");
      ("Lower middle income", "#f59e0b");
      ("Low income", "#dc2626") ]%string in
  map (fun '(name, color) =>
         (color,
          if Nat.ltb 20 (String.length name)
          then (String.substring 0 17 name ++ "...")%string
          else name))
      incomeGroups.

(** *** The trend line *)

(** The loop of [addTrendLine]: the sums [numerator] and [denominator]. *)
Definition deviations (validData : list observation) (xField yField : string)
  (xMean yMean : jsnum N) : N * N :=
  fold_left
    (fun '(numerator, denominator) d =>
       let xDiff := to_number (field xField d) - to_number xMean in
       let yDiff := to_number (field yField d) - to_number yMean in
       (numerator + xDiff * yDiff, denominator + xDiff * xDiff))
    validData (of_Z 0, of_Z 0).

(** [slope] and [intercept] as [addTrendLine] computes them. *)
Definition regression (validData : list observation) (xField yField : string)
  : N * N :=
  let xMean := D3.mean validData (field xField) in
  let yMean := D3.mean validData (field yField) in
  let '(numerator, denominator) :=
    deviations validData xField yField xMean yMean in
  let slope := numerator / denominator in
  let intercept := to_number yMean - slope * to_number xMean in
  (slope, intercept).

Definition trend_points (validData : list observation)
  (xField yField : string) : list observation :=
  filter (fun d => not_null (field xField d) && not_null (field yField d))
    validData.

(** [addTrendLine]: [None] when it returns before drawing; otherwise the
    points of the path, [numPoints + 1] samples of the fitted line sent
    through the two scales. *)
Definition addTrendLine (data : list observation) (xField yField : string)
  (xScale yScale : D3.continuous) : option (list (jsnum N * jsnum N)) :=
  let validData := trend_points data xField yField in
  if Nat.ltb (List.length validData) 3 then None
  else
    let '(slope, intercept) := regression validData xField yField in
    let xExtent := D3.extent validData (field xField) in
    let numPoints := 50%nat in
    let lineData :=
      map (fun i =>
             let x := to_number (fst xExtent)
                      + (to_number (snd xExtent) - to_number (fst xExtent))
                        * (of_Z (Z.of_nat i) / of_Z (Z.of_nat numPoints)) in
             let y := slope * x + intercept in
             (x, y))
          (seq 0 (S numPoints)) in
    Some (map (fun '(x, y) =>
                 (D3.scale xScale (Num x), D3.scale yScale (Num y)))
              lineData).

(** ** The three scenes *)

(** What a render leaves in [#viz-k], replacing what was there
    ([selectAll('*').remove()] comes first). *)
Definition put_svg (k : Z) (c : rendering) : M unit :=
  s <- get ;;
  modify (set_svg (fun j => if Z.eqb j k then Some c else svg s j)).

(** [this.data] where the program calls a method on it: [null] throws. *)
Definition this_data : M (list observation) :=
  this <- get ;;
  spread (data this).

(** [[0, d3.max(data, d => d.hiv_incidence_rate) * 1.1]] *)
Definition hiv_domain (ds : list observation) : jsnum N * jsnum N :=
  (Num (of_Z 0),
   Num (to_number (D3.max ds hiv_incidence_rate) * dec 11 1)).

(** Scene 1: Global Landscape - Income vs HIV Incidence *)
Definition renderScene1 : M unit :=
  hideLoading 1 ;;;
  page <- get ;;
  (* Get filter values *)
  let year' := value_or (year_slider_1 page) "2021" in
  let region' := value_or (region_select_1 page) "all" in
  (* Filter data *)
  data <- filterData {| f_year := VStr year'; f_region := VStr region';
                        f_income := VUndefined |} ;;
  (* Filter for valid data *)
  let validData :=
    filter (fun d =>
              not_null (income_per_capita d)
              && not_null (hiv_incidence_rate d)
              && num_ge (hiv_incidence_rate d) (of_Z 0))
      data in
  if Nat.eqb (List.length validData) 0
  then put_svg 1 (NoData "No data available for the selected filters")
  else
    (* Set up scales with better domain handling *)
    let xExtent := D3.extent validData income_per_capita in
    let xDomain :=
      (Math_max (to_number (fst xExtent)) (of_Z 100),
       to_number (snd xExtent)) in
    let yScale := D3.scaleSqrt (hiv_domain validData) (height, of_Z 0) in
    let rScale :=
      D3.scaleSqrt (population_extent validData) (of_Z 3, of_Z 25) in
    circles <- draw_circles rScale validData ;;
    put_svg 1
      (Chart xDomain (D3.domain yScale) (D3.domain rScale) circles None
         addIncomeLegend).

(** Scene 2: Education Factor *)
Definition renderScene2 : M unit :=
  hideLoading 2 ;;;
  page <- get ;;
  (* Get filter values *)
  let year' := value_or (year_slider_2 page) "2021" in
  let educationMetric :=
    value_or (education_metric page) "secondary_school_enrollment" in
  (* Filter data for selected year with education data *)
  all <- this_data ;;
  let data :=
    filter (fun d =>
              num_strict_eq (year d) (parseInt (VStr year'))
              && not_null (field educationMetric d)
              && not_null (hiv_incidence_rate d)
              && not_null (income_per_capita d))
      all in
  if Nat.eqb (List.length data) 0
  then put_svg 2 (NoData "Limited education data available")
  else
    (* Set up scales *)
    let xScale :=
      D3.scaleLinear (D3.extent data (field educationMetric))
        (of_Z 0, width) in
    let yScale := D3.scaleSqrt (hiv_domain data) (height, of_Z 0) in
    let rScale := D3.scaleSqrt (population_extent data) (of_Z 4, of_Z 20) in
    circles <- draw_circles rScale data ;;
    (* Add trend line *)
    let trend :=
      addTrendLine data educationMetric "hiv_incidence_rate" xScale yScale in
    put_svg 2
      (Chart (D3.domain xScale) (D3.domain yScale) (D3.domain rScale) circles
         trend addIncomeLegend).

(** Scene 3: Behavioral Impact *)
Definition renderScene3 : M unit :=
  hideLoading 3 ;;;
  all <- this_data ;;
  (* Filter data for condom use data - aggregate across 2010+ *)
  let filteredData :=
    filter (fun d =>
              not_null (condom_use_average d)
              && not_null (adult_literacy_rate d)
              && num_ge (year d) (of_Z 2010))
      all in
  let data := filteredData in
  if Nat.eqb (List.length data) 0
  then put_svg 3 (NoData "Limited behavioral data available")
  else
    (* Set up scales *)
    let xScale :=
      D3.scaleLinear (D3.extent data adult_literacy_rate) (of_Z 0, width) in
    let yScale :=
      D3.scaleLinear (D3.extent data condom_use_average) (height, of_Z 0) in
    let rScale := D3.scaleSqrt (population_extent data) (of_Z 4, of_Z 20) in
    circles <- draw_circles rScale data ;;
    (* Add trend line *)
    let trend :=
      addTrendLine data "adult_literacy_rate" "condom_use_average"
        xScale yScale in
    put_svg 3
      (Chart (D3.domain xScale) (D3.domain yScale) (D3.domain rScale) circles
         trend addIncomeLegend).

Definition renderCurrentScene : M unit :=
  this <- get ;;
  match data this with
  | None => ret tt                              (* if (!this.data) return *)
  | Some _ =>
      if Z.eqb (currentScene this) 1 then renderScene1
      else if Z.eqb (currentScene this) 2 then renderScene2
      else if Z.eqb (currentScene this) 3 then renderScene3
      else ret tt
  end.

Definition goToScene (sceneNumber : Z) : M unit :=
  (* Hide current scene *)
  this <- get ;;
  classList_hidden (currentScene this) true ;;;
  (* Update state *)
  modify (set_currentScene sceneNumber) ;;;
  (* Show new scene *)
  this <- get ;;
  classList_hidden (currentScene this) false ;;;
  (* Update navigation state *)
  updateNavigation ;;;
  (* Render the scene *)
  renderCurrentScene.

Definition previousScene : M unit :=
  this <- get ;;
  if Z.ltb 1 (currentScene this)
  then goToScene (currentScene this - 1)%Z
  else ret tt.

Definition nextScene : M unit :=
  this <- get ;;
  if Z.ltb (currentScene this) 3
  then goToScene (currentScene this + 1)%Z
  else ret tt.

(** ** The embedded data and the state after loading *)

Definition row (name code : string) (yr : Z) (rgn group : string)
  (income hiv literacy life : N) (population : Z) (condom : Z)
  : observation :=
  {| country_name := Str name; country_code := Str code;
     year := Num (of_Z yr); region := Str rgn; income_group := Str group;
     income_per_capita := Num income; hiv_incidence_rate := Num hiv;
     adult_literacy_rate := Num literacy;
     secondary_school_enrollment := Undefined;
     condom_use_average := Num (of_Z condom);
     total_population := Num (of_Z population);
     life_expectancy := Num life |}.

Definition getEmbeddedData : list observation :=
  [ row "United States" "USA" 2021 "North America" "High income"
      (of_Z 63593) (dec 38 2) (of_Z 99) (dec 7886 2) 331893745 61;
    row "Germany" "DEU" 2021 "Europe & Central Asia" "High income"
      (of_Z 46208) (dec 12 2) (of_Z 99) (dec 8133 2) 83129285 65;
    row "South Africa" "ZAF" 2021 "Sub-Saharan Africa" "Upper middle income"
      (of_Z 6374) (dec 77 1) (of_Z 87) (dec 6413 2) 59392255 45;
    row "Brazil" "BRA" 2021 "Latin America & Caribbean" "Upper middle income"
      (of_Z 7507) (dec 41 2) (of_Z 93) (dec 7588 2) 213993437 55;
    row "India" "IND" 2021 "South Asia" "Lower middle income"
      (of_Z 1947) (dec 7 2) (of_Z 74) (dec 6966 2) 1380004385 32;
    row "China" "CHN" 2021 "East Asia & Pacific" "Upper middle income"
      (of_Z 10500) (dec 3 2) (of_Z 97) (dec 7821 2) 1412360000 48;
    row "Nigeria" "NGA" 2021 "Sub-Saharan Africa" "Lower middle income"
      (of_Z 2097) (dec 52 2) (of_Z 62) (dec 5469 2) 218541212 28;
    row "Thailand" "THA" 2021 "East Asia & Pacific" "Upper middle income"
      (of_Z 7189) (dec 6 2) (of_Z 93) (dec 7715 2) 69950850 72;
    row "Kenya" "KEN" 2021 "Sub-Saharan Africa" "Lower middle income"
      (of_Z 1816) (dec 14 1) (of_Z 82) (dec 667 1) 54027487 58;
    row "Rwanda" "RWA" 2021 "Sub-Saharan Africa" "Low income"
      (of_Z 822) (dec 26 2) (of_Z 73) (dec 690 1) 13276513 54;
    (* Add more years for some countries to show time series *)
    row "United States" "USA" 2015 "North America" "High income"
      (of_Z 56863) (dec 42 2) (of_Z 99) (dec 7869 2) 321418820 58;
    row "South Africa" "ZAF" 2015 "Sub-Saharan Africa" "Upper middle income"
      (of_Z 5724) (dec 102 1) (of_Z 85) (dec 6277 2) 55386367 42;
    row "Thailand" "THA" 2015 "East Asia & Pacific" "Upper middle income"
      (of_Z 5970) (dec 9 2) (of_Z 93) (dec 7643 2) 68863514 68;
    row "Rwanda" "RWA" 2015 "Sub-Saharan Africa" "Low income"
      (of_Z 697) (dec 35 2) (of_Z 68) (dec 661 1) 11917508 48;
    (* Add 2010 data points *)
    row "United States" "USA" 2010 "North America" "High income"
      (of_Z 48374) (dec 48 2) (of_Z 99) (dec 7854 2) 309321666 54;
    row "South Africa" "ZAF" 2010 "Sub-Saharan Africa" "Upper middle income"
      (of_Z 7275) (dec 151 1) (of_Z 82) (dec 5809 2) 51216964 38;
    row "Thailand" "THA" 2010 "East Asia & Pacific" "Upper middle income"
      (of_Z 5112) (dec 15 2) (of_Z 92) (dec 7524 2) 66402316 62;
    row "Rwanda" "RWA" 2010 "Sub-Saharan Africa" "Low income"
      (of_Z 594) (dec 68 2) (of_Z 63) (dec 623 1) 10412820 35 ].

(** [this.colors.income] as the constructor builds it. *)
Definition income_scale : D3.ordinal :=
  {| D3.o_domain := [ Str "Low income"; Str "Lower middle income";
                      Str "Upper middle income"; Str "High income" ];
     D3.o_range := [ "#dc2626"; "#d97706"; "#059669"; "#2563eb" ] |}.

(** Modelled from the spec: [index.html] is not among the sources.  The page
    has exactly three scenes, [#scene-1] shown and the other two hidden, one
    indicator dot per scene, the year sliders of scenes 1 and 2, the region
    selector with its [all] entry, and the metric selector of scene 2.  The
    state is the one the constructor leaves, with [ds] as [this.data] and
    the controls holding [yr], [rgn] and [metric]. *)
Definition page (ds : option (list observation))
  (yr rgn metric : string) : state :=
  {| currentScene := 1;
     data := ds;
     colors_income := income_scale;
     scene_hidden := fun k =>
       if Z.eqb k 1 then Some false
       else if Z.eqb k 2 then Some true
       else if Z.eqb k 3 then Some true
       else None;
     prev_disabled := true;
     next_disabled := false;
     dot_active := [true; false; false];
     year_slider_1 := Some yr;
     region_select_1 := Some rgn;
     year_slider_2 := Some yr;
     education_metric := Some metric;
     svg := fun _ => None |}.

(** A method keeps the scene pointer when it ends, by returning or by
    throwing, in a state with the [currentScene] it started from. *)
Definition keeps_scene {A} (m : M A) : Prop :=
  forall s, currentScene (final (m s)) = currentScene s.

End Program.

Arguments observation N : clear implicits.
Arguments circle N : clear implicits.
Arguments rendering N : clear implicits.
Arguments state N : clear implicits.
Arguments outcome N A : clear implicits.
Arguments M N A : clear implicits.
Arguments Returned {N A} a s.
Arguments Thrown {N A} s.

End Viz.

(* ================================================================== *)
(** * The filter contract in the words of the specification *)
(* ================================================================== *)

Module Spec.
Import JS Viz.

Section Contract.
Context {N : Type} `{Number N}.

(** A criterion is specified when it is set (a truthy value); for region
    and income it must also differ from the sentinel ["all"]. *)
Definition year_specified (fs : filters) : bool := truthy (f_year fs).
Definition region_specified (fs : filters) : bool :=
  truthy (f_region fs) && not_all (f_region fs).
Definition income_specified (fs : filters) : bool :=
  truthy (f_income fs) && not_all (f_income fs).

(** The record meets every specified criterion (its year is the given
    year, read as an integer; its region is the given region; its income
    group is the given one) and carries at least one of the two anchor
    indicators. *)
Definition satisfies (fs : filters) (d : observation N) : bool :=
  (if year_specified fs
   then num_strict_eq (year d) (parseInt (f_year fs)) else true)
  && (if region_specified fs
      then str_strict_eq (region d) (f_region fs) else true)
  && (if income_specified fs
      then str_strict_eq (income_group d) (f_income fs) else true)
  && (not_null (income_per_capita d) || not_null (life_expectancy d)).

End Contract.

(** The three dimensions of a criteria object. *)
Inductive dimension : Type := Year | Region | Income.

Definition criterion (dim : dimension) (fs : filters) : value :=
  match dim with
  | Year => f_year fs
  | Region => f_region fs
  | Income => f_income fs
  end.

(** The criteria object with one dimension absent. *)
Definition without (dim : dimension) (fs : filters) : filters :=
  match dim with
  | Year =>
      {| f_year := VUndefined; f_region := f_region fs;
         f_income := f_income fs |}
  | Region =>
      {| f_year := f_year fs; f_region := VUndefined;
         f_income := f_income fs |}
  | Income =>
      {| f_year := f_year fs; f_region := f_region fs;
         f_income := VUndefined |}
  end.

(** [l1] is [l2] with some elements dropped, the others in their order. *)
Inductive Subseq {A : Type} : list A -> list A -> Prop :=
| Subseq_nil : Subseq [] []
| Subseq_keep x l1 l2 : Subseq l1 l2 -> Subseq (x :: l1) (x :: l2)
| Subseq_drop x l1 l2 : Subseq l1 l2 -> Subseq l1 (x :: l2).

(** "Within floating-point tolerance", read as: at most [10^-12] away from
    the target ([tolerance] is the binary64 number nearest to [10^-12]). *)
Definition tolerance : float := 0x1.19799812dea11p-40%float.

Definition within_tolerance (x target : float) : bool :=
  (abs (x - target) <=? tolerance)%float.

End Spec.

(* ================================================================== *)
(** * Concrete pages and datasets *)
(* ================================================================== *)

Module Samples.
Import JS Viz.
Local Open Scope string_scope.

(** The page once [loadData] fell back to the embedded data: sliders on the
    most recent year, every region, scene 2 on the enrollment metric. *)
Definition loaded : state float :=
  page (Some getEmbeddedData) "2021" "all" "secondary_school_enrollment".

(** The same page with scene 2 on the literacy metric. *)
Definition loaded_literacy : state float :=
  page (Some getEmbeddedData) "2021" "all" "adult_literacy_rate".

(** Two countries whose populations are in ratio 4:1. *)
Definition two_bubbles : list (observation float) :=
  [ row "Bigland" "BIG" 2021 "South Asia" "Low income"
      (of_Z 1000) (of_Z 1) (of_Z 50) (of_Z 60) 4000000 50;
    row "Smalland" "SML" 2021 "South Asia" "Low income"
      (of_Z 2000) (of_Z 2) (of_Z 60) (of_Z 70) 1000000 40 ].

(** A record whose literacy is [x] and whose condom use is [y]. *)
Definition point {N} `{Number N} (x y : N) : observation N :=
  {| country_name := Str "Point"; country_code := Str "PNT";
     year := Num (of_Z 2021); region := Str "South Asia";
     income_group := Str "Low income";
     income_per_capita := Num (of_Z 1000);
     hiv_incidence_rate := Num (of_Z 1);
     adult_literacy_rate := Num x;
     secondary_school_enrollment := Undefined;
     condom_use_average := Num y;
     total_population := Num (of_Z 1000000);
     life_expectancy := Num (of_Z 60) |}.


(** Five records on the line [y = 2x + 1], at [x = 1, ..., 5]. *)
Definition on_line {N} `{Number N} : list (observation N) :=
  map (fun x => point (of_Z x) (of_Z (2 * x + 1))) [1; 2; 3; 4; 5]%Z.

(** The three United States records of the embedded data. *)
Definition united_states : list (observation float) :=
  filter (fun d => jsstr_eqb (country_code d) (Str "USA")) getEmbeddedData.

(** The page showing [two_bubbles]. *)
Definition bubbles_page : state float :=
  page (Some two_bubbles) "2021" "all" "adult_literacy_rate".

(** Two countries whose populations, [2^52] and [2^52 + 1], have square
    roots that round to the same binary64 number, and the page showing
    them. *)
Definition twins : list (observation float) :=
  [ row "Bigland" "BIG" 2021 "South Asia" "Low income"
      (of_Z 1000) (of_Z 1) (of_Z 50) (of_Z 60) 4503599627370497 50;
    row "Smalland" "SML" 2021 "South Asia" "Low income"
      (of_Z 2000) (of_Z 2) (of_Z 60) (of_Z 70) 4503599627370496 40 ].

Definition twins_page : state float :=
  page (Some twins) "2021" "all" "adult_literacy_rate".

(** The page before the dataset is loaded. *)
Definition unloaded : state float :=
  page None "2021" "all" "secondary_school_enrollment".

(** Criteria objects. *)
Definition sub_saharan_2021 : filters :=
  {| f_year := VStr "2021"; f_region := VStr "Sub-Saharan Africa";
     f_income := VUndefined |}.

Definition all_regions_2021 : filters :=
  {| f_year := VStr "2021"; f_region := VStr "all"; f_income := VNull |}.

Definition all_years : filters :=
  {| f_year := VStr "all"; f_region := VUndefined; f_income := VUndefined |}.

(** Three records on the line [y = 2x + 1] far from the origin, at
    [x = 2^51 + 1], [2^51 + 2] and [2^51 + 4]: each [x] and each [2x + 1] is
    an integer below [2^53], hence a binary64 number. *)
Definition far_out : list (observation float) :=
  map (fun x => point x (2 * x + 1)%float)
    [ 2251799813685249; 2251799813685250; 2251799813685252 ]%float.

(** A record with a condom use of 7 and no [adult_literacy_rate] key. *)
Definition no_literacy : observation float :=
  {| country_name := Str "Point"; country_code := Str "PNT";
     year := Num (of_Z 2021); region := Str "South Asia";
     income_group := Str "Low income";
     income_per_capita := Num (of_Z 1000);
     hiv_incidence_rate := Num (of_Z 1);
     adult_literacy_rate := Undefined;
     secondary_school_enrollment := Undefined;
     condom_use_average := Num (of_Z 7);
     total_population := Num (of_Z 1000000);
     life_expectancy := Num (of_Z 60) |}.

(** The five points of [on_line] followed by [no_literacy]. *)
Definition on_line_and_one_without_x : list (observation float) :=
  (on_line ++ [no_literacy])%list.

End Samples.

(* ================================================================== *)
(** * The annotations of scene 1 *)
(* ================================================================== *)

Module Annotations.
Import JS Viz.

Section Annotations.
Context {N : Type} `{Number N}.
Local Open Scope string_scope.

(** [Array.prototype.sort(compareFn)]: the sort is stable (ECMAScript 2019)
    and reads a positive [compareFn(a, b)] as "a after b", anything else,
    [NaN] included, as "keep a first".  An insertion sort from the right is
    such a sort; where [compareFn] does not order the elements
    consistently the standard leaves the result to the engine. *)
Fixpoint insert {A : Type} (compareFn : A -> A -> N) (a : A) (l : list A)
  : list A :=
  match l with
  | [] => [a]
  | b :: rest =>
      if num_ltb (of_Z 0) (compareFn a b)
      then b :: insert compareFn a rest
      else a :: b :: rest
  end.

Definition sort {A : Type} (compareFn : A -> A -> N) (l : list A) : list A :=
  fold_right (insert compareFn) [] l.

(** What [addScene1Annotations] appends: a dashed rectangle around the
    marks of some records (their bounding box, padded by 30 and 20 pixels),
    or a line of text placed at an offset from the mark of one record. *)
Inductive annotation : Type :=
| Rect (members : list (observation N)) (stroke : string)
| Text (anchor : observation N) (dx dy : Z) (text : string).

(** [d.hiv_incidence_rate] as the comparators read it. *)
Definition hiv (d : observation N) : N := to_number (hiv_incidence_rate d).

Definition by_hiv_descending (a b : observation N) : N := num_sub (hiv b) (hiv a).
Definition by_hiv_ascending (a b : observation N) : N := num_sub (hiv a) (hiv b).

Definition is_group (g : string) (d : observation N) : bool :=
  jsstr_eqb (income_group d) (Str g).

Definition named (name : string) (d : observation N) : bool :=
  jsstr_eqb (country_name d) (Str name) && not_null (hiv_incidence_rate d).

Definition upperMiddleIncomeHighHIV (data : list (observation N)) :=
  filter (fun d => is_group "Upper middle income" d
                   && num_gt (hiv_incidence_rate d) (of_Z 1)) data.

Definition upperMiddleIncomeModerateHIV (data : list (observation N)) :=
  filter (fun d => is_group "Upper middle income" d
                   && num_gt (hiv_incidence_rate d) (dec 5 1)) data.

Definition lowIncomeLowHIV (data : list (observation N)) :=
  filter (fun d => is_group "Low income" d
                   && num_lt (hiv_incidence_rate d) (dec 2 1)) data.

(** [sorted[0]] and its use: reading a property of [undefined] throws. *)
Definition with_first {A B : Type} (l : list A) (k : A -> B) : option B :=
  match l with
  | example :: _ => Some (k example)
  | [] => None
  end.

(** First annotation: upper middle income with high HIV. *)
Definition first_annotation (data : list (observation N))
  : option (list (annotation)) :=
  let southAfrica := find (named "South Africa") data in
  (* Draw dotted rectangle around upper middle income countries with high HIV *)
  let box :=
    if Nat.ltb 0 (List.length (upperMiddleIncomeHighHIV data))
    then [Rect (upperMiddleIncomeHighHIV data) "#059669"]
    else [] in
  let two_lines (d : observation N) (dy1 dy2 : Z) :=
    [ Text d 20 dy1 "Upper middle income does not";
      Text d 20 dy2 "guarantee low HIV incidence" ] in
  let otherwise :=
    if Nat.ltb 0 (List.length (upperMiddleIncomeHighHIV data))
    then with_first (sort by_hiv_descending (upperMiddleIncomeHighHIV data))
           (fun example => (box ++ two_lines example (-20) (-5))%list%Z)
    else if Nat.ltb 0 (List.length (upperMiddleIncomeModerateHIV data))
    then with_first
           (sort by_hiv_descending (upperMiddleIncomeModerateHIV data))
           (fun example =>
              (box ++ [Text example 20 (-10)
                         "Income level alone doesn't predict health outcomes"])%list)
    else Some box in
  (* Prioritize South Africa if it exists and has notable HIV rate *)
  match southAfrica with
  | Some sa =>
      if num_gt (hiv_incidence_rate sa) (of_Z 1)
      then Some (box ++ two_lines sa 0 10)%list%Z
      else otherwise
  | None => otherwise
  end.

(** Second annotation: low income with low HIV. *)
Definition second_annotation (data : list (observation N))
  : option (list (annotation)) :=
  let afghanistan := find (named "Afghanistan") data in
  (* Draw dotted rectangle around low income countries with low HIV *)
  let box :=
    if Nat.ltb 0 (List.length (lowIncomeLowHIV data))
    then [Rect (lowIncomeLowHIV data) "#dc2626"]
    else [] in
  let line (d : observation N) :=
    [Text d (-150) 15
       "Low income doesn't necessarily mean high HIV incidence"] in
  let otherwise :=
    if Nat.ltb 0 (List.length (lowIncomeLowHIV data))
    then with_first (sort by_hiv_ascending (lowIncomeLowHIV data))
           (fun example => (box ++ line example)%list)
    else Some box in
  (* Target Afghanistan specifically, or any low income country with very
     low HIV *)
  match afghanistan with
  | Some af =>
      if num_lt (hiv_incidence_rate af) (dec 5 1)
      then Some (box ++ line af)%list
      else otherwise
  | None => otherwise
  end.

(** [addScene1Annotations(container, xScale, yScale, data)]: what it
    appends, in order; [None] when it throws.  The scales only place the
    elements. *)
Definition addScene1Annotations (data : list (observation N))
  : option (list annotation) :=
  match first_annotation data with
  | Some first =>
      match second_annotation data with
      | Some second => Some (first ++ second)%list
      | None => None
      end
  | None => None
  end.

End Annotations.

Arguments annotation N : clear implicits.

End Annotations.

(* ================================================================== *)
(** * Reading what the methods do *)
(* ================================================================== *)

Module Effects.
Import JS Viz Spec.

Section Effects.
Context {N : Type} `{Number N}.
Local Open Scope string_scope.

(** The contents of the [svg]s with [c] in [#viz-k]. *)
Definition upd (k : Z) (c : rendering N) (f : Z -> option (rendering N))
  : Z -> option (rendering N) :=
  fun j => if Z.eqb j k then Some c else f j.

(** The state [s] with the colour scale [o] and with [c] in [#viz-k]: the
    two things a render may change. *)
Definition rendered (k : Z) (c : rendering N) (o : D3.ordinal) (s : state N)
  : state N :=
  set_svg (upd k c (svg s)) (set_colors_income o s).

(** The circles drawn for [ds] starting from the colour scale [o], and the
    scale afterwards. *)
Fixpoint paint (rScale : D3.continuous) (o : D3.ordinal)
  (ds : list (observation N)) : list (circle N) * D3.ordinal :=
  match ds with
  | [] => ([], o)
  | d :: rest =>
      let '(c, o1) := D3.ordinal_apply o (income_group d) in
      let '(cs, o2) := paint rScale o1 rest in
      ({| datum := d; r := D3.scale rScale (population d); fill := c |} :: cs,
       o2)
  end.

(** [o'] is [o] with keys appended to its domain. *)
Definition extends (o o' : D3.ordinal) : Prop :=
  exists extra,
    D3.o_domain o' = (D3.o_domain o ++ extra)%list
    /\ D3.o_range o' = D3.o_range o.

(** The scale after looking up each key of a list in turn. *)
Definition lookups (o : D3.ordinal) (keys : list jsstr) : D3.ordinal :=
  fold_left (fun o g => snd (D3.ordinal_apply o g)) keys o.

(** The records each scene draws, read from the controls and the
    dataset. *)
Definition scene1_filters (s : state N) : filters :=
  {| f_year := VStr (value_or (year_slider_1 s) "2021");
     f_region := VStr (value_or (region_select_1 s) "all");
     f_income := VUndefined |}.

Definition scene1_records (s : state N) (ds : list (observation N))
  : list (observation N) :=
  filter (fun d =>
            not_null (income_per_capita d)
            && not_null (hiv_incidence_rate d)
            && num_ge (hiv_incidence_rate d) (of_Z 0))
    (filter (satisfies (scene1_filters s)) ds).

Definition scene2_metric (s : state N) : string :=
  value_or (education_metric s) "secondary_school_enrollment".

Definition scene2_records (s : state N) (ds : list (observation N))
  : list (observation N) :=
  filter (fun d =>
            num_strict_eq (year d)
              (parseInt (VStr (value_or (year_slider_2 s) "2021")))
            && not_null (field (scene2_metric s) d)
            && not_null (hiv_incidence_rate d)
            && not_null (income_per_capita d))
    ds.

Definition scene3_records (ds : list (observation N))
  : list (observation N) :=
  filter (fun d =>
            not_null (condom_use_average d)
            && not_null (adult_literacy_rate d)
            && num_ge (year d) (of_Z 2010))
    ds.

(** The dataset and the four controls: what navigation and rendering only
    read. *)
Definition same_inputs (s s' : state N) : Prop :=
  data s' = data s
  /\ year_slider_1 s' = year_slider_1 s
  /\ region_select_1 s' = region_select_1 s
  /\ year_slider_2 s' = year_slider_2 s
  /\ education_metric s' = education_metric s.

(** The scene pointer and what the page shows of it. *)
Definition same_page (s s' : state N) : Prop :=
  currentScene s' = currentScene s
  /\ (forall k, scene_hidden s' k = scene_hidden s k)
  /\ prev_disabled s' = prev_disabled s
  /\ next_disabled s' = next_disabled s
  /\ dot_active s' = dot_active s.

(** From [s] to [s'] nothing changed but the content of [#viz-k] and the
    colour scale, which may have grown. *)
Definition render_only (k : Z) (s s' : state N) : Prop :=
  same_inputs s s'
  /\ same_page s s'
  /\ (forall j, j <> k -> svg s' j = svg s j)
  /\ extends (colors_income s) (colors_income s').

(** [s] and [s'] hold the same values in every field. *)
Definition same_state (s s' : state N) : Prop :=
  same_inputs s s'
  /\ same_page s s'
  /\ (forall j, svg s' j = svg s j)
  /\ colors_income s' = colors_income s.

(** ** The radius scale and the trend line *)

(** The pixel range of [rScale]: [[3, 25]] in [renderScene1], [[4, 20]] in
    [renderScene2] and [renderScene3]. *)
Definition pixel_range (k : Z) : N * N :=
  if Z.eqb k 1 then (of_Z 3, of_Z 25) else (of_Z 4, of_Z 20).

(** [rScale] as scene [k] builds it for the records it draws. *)
Definition rScale_of (k : Z) (recs : list (observation N)) : D3.continuous :=
  D3.scaleSqrt (population_extent recs) (pixel_range k).

(** The path of a trend line: the points of [y = slope x + intercept] at the
    51 abscissas [lo + (hi - lo) (i / 50)], [i = 0, ..., 50], each sent
    through the two scales. *)
Definition sampled_line (lo hi slope intercept : N)
  (xScale yScale : D3.continuous) : list (jsnum N * jsnum N) :=
  map (fun i =>
         let x := (lo + (hi - lo) * (of_Z (Z.of_nat i) / of_Z 50))%js in
         (D3.scale xScale (Num x),
          D3.scale yScale (Num (slope * x + intercept)%js)))
      (seq 0 51).

(** ** Sequences of clicks *)

Inductive action : Type :=
| Previous                 (* the Previous button *)
| Next                     (* the Next button *)
| Dot (scene : Z).         (* a scene indicator *)

Definition handler (a : action) : M N unit :=
  match a with
  | Previous => previousScene
  | Next => nextScene
  | Dot scene => goToScene scene
  end.

(** Each click runs its handler in the state the last one left; a handler
    that throws leaves the state it had reached. *)
Definition clicks (actions : list action) (s : state N) : state N :=
  fold_left (fun s a => final (handler a s)) actions s.

Definition in_range (a : action) : Prop :=
  match a with
  | Dot scene => (1 <= scene <= 3)%Z
  | _ => True
  end.

(** The page shows one scene, the current one, and its buttons and dots
    say so. *)
Definition consistent (s : state N) : Prop :=
  (1 <= currentScene s <= 3)%Z
  /\ (forall k, (1 <= k <= 3)%Z ->
                scene_hidden s k = Some (negb (Z.eqb k (currentScene s))))
  /\ prev_disabled s = Z.eqb (currentScene s) 1
  /\ next_disabled s = Z.eqb (currentScene s) 3
  /\ dot_active s = [ Z.eqb 1 (currentScene s); Z.eqb 2 (currentScene s);
                      Z.eqb 3 (currentScene s) ].

End Effects.

End Effects.

(* ================================================================== *)
(** * Small datasets on the line y = 2x + 1 *)
(* ================================================================== *)

Module Line.
Import JS Viz Spec.
Local Open Scope string_scope.







End Line.

(* ================================================================== *)
(** * Properties *)
(* ================================================================== *)

Import JS Viz Spec Samples.

(** ** Lists *)

Lemma filter_twice {A} (p q : A -> bool) (l : list A) :
  filter q (filter p l) = filter (fun x => p x && q x) l.
Proof.
  induction l as [|a l IH]; simpl; [reflexivity|].
  destruct (p a); simpl; [destruct (q a)|]; rewrite IH; reflexivity.
Qed.

Lemma filter_Subseq {A} (p : A -> bool) (l : list A) :
  Subseq (filter p l) l.
Proof.
  induction l as [|a l IH]; simpl; [constructor|].
  destruct (p a); constructor; exact IH.
Qed.

Lemma filter_fixed {A} (p : A -> bool) (l : list A) :
  filter p (filter p l) = filter p l.
Proof.
  rewrite filter_twice. apply filter_ext. intro x. apply andb_diag.
Qed.

(** ** The filter engine *)

Section FilterEngine.
Context {N : Type} `{Number N}.

(** [filterData] written as one pass. *)
Lemma filterData_one_pass (fs : filters) (s : state N) :
  filterData fs s =
  match data s with
  | Some ds => Returned (filter (satisfies fs) ds) s
  | None => Thrown s
  end.
Proof.
  unfold filterData, bind, get, spread, ret, throw.
  destruct (data s) as [ds|]; [|reflexivity].
  f_equal. unfold satisfies, year_specified, region_specified,
    income_specified.
  destruct (truthy (f_year fs));
    destruct (truthy (f_region fs) && not_all (f_region fs));
    destruct (truthy (f_income fs) && not_all (f_income fs));
    rewrite ?filter_twice; apply filter_ext; intro d; simpl;
    rewrite ?andb_assoc, ?andb_true_r; reflexivity.
Qed.

(** C1. On every dataset and criteria object [filterData] returns exactly
    the records that meet every specified criterion (year when set, region
    and income when set and not ["all"]) and that have [income_per_capita]
    or [life_expectancy] different from [null], in the order of the input;
    every returned record is a record of the dataset. *)
Theorem filterData_exact (fs : filters) (s : state N)
  (ds : list (observation N)) :
  data s = Some ds ->
  exists out,
    filterData fs s = Returned out s
    /\ out = filter (satisfies fs) ds
    /\ (forall d, In d out <-> In d ds /\ satisfies fs d = true)
    /\ Subseq out ds.
Proof.
  intro Hdata. exists (filter (satisfies fs) ds).
  rewrite filterData_one_pass, Hdata.
  split; [reflexivity|]. split; [reflexivity|]. split.
  - intro d. apply filter_In.
  - apply filter_Subseq.
Qed.

(** C2, amended. A dimension whose criterion is unset (absent, [null], the
    empty string or [0]) excludes no record, and so does the region or the
    income criterion set to ["all"]: the output is the one obtained with
    that dimension absent. *)
Theorem unset_or_all_excludes_nothing (dim : dimension) (fs : filters)
  (s : state N) :
  truthy (criterion dim fs) = false
  \/ (dim <> Year /\ criterion dim fs = VStr "all") ->
  filterData fs s = filterData (without dim fs) s.
Proof.
  intro Hdim. rewrite !filterData_one_pass.
  destruct (data s) as [ds|]; [|reflexivity].
  f_equal. apply filter_ext. intro d.
  unfold satisfies, year_specified, region_specified, income_specified.
  destruct dim; simpl in *;
    destruct Hdim as [Hunset | [Hdim Hall]];
    try congruence;
    try rewrite Hunset; try rewrite Hall; reflexivity.
Qed.

(** C7. Filtering is idempotent: when [filterData] returned [out], calling
    it with the same criteria on [out] as the dataset returns [out]. *)
Theorem filterData_idempotent (fs : filters) (s s' : state N)
  (out : list (observation N)) :
  filterData fs s = Returned out s' ->
  filterData fs (set_data (Some out) s')
  = Returned out (set_data (Some out) s').
Proof.
  rewrite !filterData_one_pass. simpl.
  destruct (data s) as [ds|]; [|discriminate].
  intro Hret. injection Hret as Hout _. subst out.
  rewrite filter_fixed. reflexivity.
Qed.

(** C9. [filterData] leaves the state as it found it, [this.data] and its
    records included, and what it returns depends on the dataset and the
    criteria only: two states holding the same dataset give the same
    output. *)
Theorem filterData_pure (fs : filters) (s1 s2 : state N) :
  data s1 = data s2 ->
  final (filterData fs s1) = s1
  /\ data (final (filterData fs s1)) = data s1
  /\ returned (filterData fs s1) = returned (filterData fs s2).
Proof.
  intro Hsame. rewrite !filterData_one_pass, <- Hsame.
  destruct (data s1) eqn:Hdata; simpl; auto.
Qed.

End FilterEngine.

Lemma filterData_exact_witness :
  data loaded = Some getEmbeddedData
  /\ exists out,
       filterData sub_saharan_2021 loaded
       = Returned out loaded
       /\ out = filter (satisfies sub_saharan_2021) getEmbeddedData
       /\ (forall d, In d out <->
                     In d getEmbeddedData
                     /\ satisfies sub_saharan_2021 d = true)
       /\ Subseq out getEmbeddedData.
Proof.
  split; [reflexivity|].
  apply (@filterData_exact float _ sub_saharan_2021 loaded getEmbeddedData).
  reflexivity.
Defined.

(** The end-to-end example of the specification: year 2021 and region
    Sub-Saharan Africa keep South Africa and Rwanda (with Nigeria and
    Kenya); income "High income" on top keeps none of them. *)
Example filterData_end_to_end :
  option_map (map country_name)
    (returned (filterData sub_saharan_2021 loaded))
  = Some [Str "South Africa"; Str "Nigeria"; Str "Kenya"; Str "Rwanda"]
  /\ returned
       (filterData {| f_year := VStr "2021";
                      f_region := VStr "Sub-Saharan Africa";
                      f_income := VStr "High income" |} loaded)
     = Some [].
Proof. split; vm_compute; reflexivity. Qed.

(** C2 as stated fails for the year: with [year: "all"] the year test is
    [d.year === parseInt("all")], that is [d.year === NaN], and no record
    passes, whereas with the year absent all eighteen records do. *)
Lemma year_all_excludes_every_record :
  returned (filterData all_years loaded) = Some []
  /\ option_map (@List.length _)
       (returned (filterData (without Year all_years) loaded))
     = Some 18%nat
  /\ filterData all_years loaded
     <> filterData (without Year all_years) loaded.
Proof.
  split; [vm_compute; reflexivity|].
  split; [vm_compute; reflexivity|].
  intro Heq. apply (f_equal returned) in Heq.
  apply (f_equal (option_map (@List.length _))) in Heq.
  vm_compute in Heq. discriminate Heq.
Qed.

Lemma unset_or_all_excludes_nothing_witness :
  (truthy (criterion Region all_regions_2021) = false
   \/ (Region <> Year /\ criterion Region all_regions_2021 = VStr "all"))
  /\ filterData all_regions_2021 loaded
     = filterData (without Region all_regions_2021) loaded.
Proof.
  split.
  - right. split; [discriminate | reflexivity].
  - apply (@unset_or_all_excludes_nothing float _ Region all_regions_2021
             loaded).
    right. split; [discriminate | reflexivity].
Defined.

Lemma filterData_idempotent_witness :
  filterData sub_saharan_2021 loaded
  = Returned (filter (satisfies sub_saharan_2021) getEmbeddedData)
      loaded
  /\ filterData sub_saharan_2021
       (set_data
          (Some (filter (satisfies sub_saharan_2021) getEmbeddedData))
          loaded)
     = Returned (filter (satisfies sub_saharan_2021) getEmbeddedData)
         (set_data
            (Some (filter (satisfies sub_saharan_2021) getEmbeddedData))
            loaded).
Proof.
  assert (Hcall :
    filterData sub_saharan_2021 loaded
    = Returned (filter (satisfies sub_saharan_2021) getEmbeddedData)
        loaded)
    by (rewrite filterData_one_pass; reflexivity).
  split; [exact Hcall|].
  exact (@filterData_idempotent float _ sub_saharan_2021 loaded loaded _
           Hcall).
Defined.

Lemma filterData_pure_witness :
  data loaded = data loaded_literacy
  /\ final (filterData sub_saharan_2021 loaded) = loaded
  /\ data (final (filterData sub_saharan_2021 loaded))
     = data loaded
  /\ returned (filterData sub_saharan_2021 loaded)
     = returned (filterData sub_saharan_2021 loaded_literacy).
Proof.
  split; [reflexivity|].
  apply (@filterData_pure float _ sub_saharan_2021 loaded loaded_literacy).
  reflexivity.
Defined.

(** ** Navigation *)

Section Navigation.
Context {N : Type} `{Number N}.

Lemma keeps_ret {A} (a : A) : keeps_scene (ret (N := N) a).
Proof. intro s. reflexivity. Qed.

Lemma keeps_throw {A} : keeps_scene (throw (N := N) (A := A)).
Proof. intro s. reflexivity. Qed.

Lemma keeps_get : keeps_scene (get (N := N)).
Proof. intro s. reflexivity. Qed.

Lemma keeps_modify (f : state N -> state N) :
  (forall s, currentScene (f s) = currentScene s) ->
  keeps_scene (modify f).
Proof. intros Hf s. apply Hf. Qed.

Lemma keeps_bind {A B} (m : M N A) (k : A -> M N B) :
  keeps_scene m -> (forall a, keeps_scene (k a)) -> keeps_scene (bind m k).
Proof.
  intros Hm Hk s. unfold bind. specialize (Hm s).
  destruct (m s) as [a s' | s']; simpl in *.
  - rewrite Hk. exact Hm.
  - exact Hm.
Qed.

Lemma keeps_mapM {A B} (f : A -> M N B) (l : list A) :
  (forall a, keeps_scene (f a)) -> keeps_scene (mapM f l).
Proof.
  intro Hf. induction l as [|a l IH]; simpl.
  - apply keeps_ret.
  - apply keeps_bind; [apply Hf|]. intro b.
    apply keeps_bind; [exact IH|]. intro bs. apply keeps_ret.
Qed.

(** Goals of the form [keeps_scene m] by the structure of [m]. *)
Ltac keeps :=
  repeat first
    [ apply keeps_ret
    | apply keeps_throw
    | apply keeps_get
    | apply keeps_modify; intro; reflexivity
    | apply keeps_mapM; intro
    | apply keeps_bind; [|intro]
    | assumption
    | match goal with
      | |- keeps_scene (if ?b then _ else _) => destruct b
      | |- keeps_scene (match ?x with _ => _ end) => destruct x
      | |- keeps_scene (let _ := _ in _) => cbv zeta
      end ].

Lemma keeps_classList_hidden (k : Z) (b : bool) :
  keeps_scene (classList_hidden (N := N) k b).
Proof. unfold classList_hidden. keeps. Qed.

Lemma keeps_updateNavigation : keeps_scene (updateNavigation (N := N)).
Proof. unfold updateNavigation. keeps. Qed.

Lemma keeps_filterData (fs : filters) : keeps_scene (filterData fs).
Proof. unfold filterData, spread. keeps. Qed.

Lemma keeps_hideLoading (k : Z) : keeps_scene (hideLoading (N := N) k).
Proof. unfold hideLoading. keeps. Qed.

Lemma keeps_put_svg (k : Z) (c : rendering N) : keeps_scene (put_svg k c).
Proof. unfold put_svg. keeps. Qed.

Lemma keeps_draw_circles (rScale : D3.continuous)
  (ds : list (observation N)) :
  keeps_scene (draw_circles rScale ds).
Proof. unfold draw_circles, income_color. keeps. Qed.

Lemma keeps_this_data : keeps_scene (this_data (N := N)).
Proof. unfold this_data, spread. keeps. Qed.

Lemma keeps_renderScene1 : keeps_scene renderScene1.
Proof.
  unfold renderScene1.
  apply keeps_bind; [apply keeps_hideLoading | intros _].
  apply keeps_bind; [apply keeps_get | intro page].
  apply keeps_bind; [apply keeps_filterData | intro data]. cbv zeta.
  match goal with |- keeps_scene (if ?b then _ else _) => destruct b end.
  - apply keeps_put_svg.
  - apply keeps_bind; [apply keeps_draw_circles | intro cs].
    apply keeps_put_svg.
Qed.

Lemma keeps_renderScene2 : keeps_scene renderScene2.
Proof.
  unfold renderScene2.
  apply keeps_bind; [apply keeps_hideLoading | intros _].
  apply keeps_bind; [apply keeps_get | intro page].
  apply keeps_bind; [apply keeps_this_data | intro all]. cbv zeta.
  match goal with |- keeps_scene (if ?b then _ else _) => destruct b end.
  - apply keeps_put_svg.
  - apply keeps_bind; [apply keeps_draw_circles | intro cs].
    apply keeps_put_svg.
Qed.

Lemma keeps_renderScene3 : keeps_scene renderScene3.
Proof.
  unfold renderScene3.
  apply keeps_bind; [apply keeps_hideLoading | intros _].
  apply keeps_bind; [apply keeps_this_data | intro all]. cbv zeta.
  match goal with |- keeps_scene (if ?b then _ else _) => destruct b end.
  - apply keeps_put_svg.
  - apply keeps_bind; [apply keeps_draw_circles | intro cs].
    apply keeps_put_svg.
Qed.

Lemma keeps_renderCurrentScene : keeps_scene renderCurrentScene.
Proof.
  unfold renderCurrentScene.
  apply keeps_bind; [apply keeps_get | intro this].
  destruct (data this); [|apply keeps_ret].
  repeat match goal with
         | |- keeps_scene (if ?b then _ else _) => destruct b
         end;
    auto using keeps_renderScene1, keeps_renderScene2, keeps_renderScene3,
      keeps_ret.
Qed.

(** Where [goToScene] leaves the scene pointer: at its argument, whatever
    it is, once the container of the current scene was found. *)
Lemma goToScene_stores (n : Z) (s : state N) :
  currentScene (final (goToScene n s)) =
  match scene_hidden s (currentScene s) with
  | Some _ => n
  | None => currentScene s
  end.
Proof.
  unfold goToScene.
  unfold bind at 1. unfold get at 1.
  unfold bind at 1. unfold classList_hidden at 1.
  unfold bind at 1. unfold get at 1.
  destruct (scene_hidden s (currentScene s)) as [h|]; [|reflexivity].
  unfold modify at 1.
  unfold bind at 1. unfold modify at 1.
  match goal with
  | |- currentScene (final (?rest ?s')) = _ =>
      assert (Hrest : keeps_scene rest)
  end.
  { apply keeps_bind; [apply keeps_get | intro this].
    apply keeps_bind; [apply keeps_classList_hidden | intros _].
    apply keeps_bind; [apply keeps_updateNavigation | intros _].
    apply keeps_renderCurrentScene. }
  rewrite Hrest. reflexivity.
Qed.

(** C3, amended. From a scene in {1, 2, 3}, [previousScene] and
    [nextScene] end in a scene in {1, 2, 3}: nothing changes from scene 1
    and from scene 3 respectively, and otherwise, on a page that has the
    container of the current scene, the pointer moves by one.  [goToScene]
    stores the index it is given, whatever it is, so it ends in {1, 2, 3}
    when the index is in {1, 2, 3}. *)
Theorem navigation_in_bounds (s : state N) :
  (1 <= currentScene s <= 3)%Z ->
  (1 <= currentScene (final (previousScene s)) <= 3)%Z
  /\ (1 <= currentScene (final (nextScene s)) <= 3)%Z
  /\ (currentScene s = 1%Z -> previousScene s = Returned tt s)
  /\ (currentScene s = 3%Z -> nextScene s = Returned tt s)
  /\ (scene_hidden s (currentScene s) <> None ->
      (currentScene s <> 1%Z ->
       currentScene (final (previousScene s)) = (currentScene s - 1)%Z)
      /\ (currentScene s <> 3%Z ->
          currentScene (final (nextScene s)) = (currentScene s + 1)%Z)
      /\ forall n, currentScene (final (goToScene n s)) = n)
  /\ (forall n, (1 <= n <= 3)%Z ->
                (1 <= currentScene (final (goToScene n s)) <= 3)%Z).
Proof.
  intro Hin.
  assert (Hgo : forall n, (1 <= n <= 3)%Z ->
                          (1 <= currentScene (final (goToScene n s)) <= 3)%Z).
  { intros n Hn. rewrite goToScene_stores.
    destruct (scene_hidden s (currentScene s)); assumption. }
  assert (Hprev : (1 <= currentScene (final (previousScene s)) <= 3)%Z).
  { unfold previousScene, bind, get.
    destruct (Z.ltb_spec 1 (currentScene s)); [apply Hgo; lia | exact Hin]. }
  assert (Hnext : (1 <= currentScene (final (nextScene s)) <= 3)%Z).
  { unfold nextScene, bind, get.
    destruct (Z.ltb_spec (currentScene s) 3); [apply Hgo; lia | exact Hin]. }
  split; [exact Hprev|]. split; [exact Hnext|].
  split; [intro H1; unfold previousScene, bind, get; rewrite H1; reflexivity|].
  split; [intro H3; unfold nextScene, bind, get; rewrite H3; reflexivity|].
  split; [|exact Hgo].
  intro Hscene.
  assert (Hstore : forall n, currentScene (final (goToScene n s)) = n).
  { intro n. rewrite goToScene_stores.
    destruct (scene_hidden s (currentScene s)); [reflexivity | congruence]. }
  split; [|split; [|exact Hstore]].
  - intro Hne. unfold previousScene, bind, get.
    destruct (Z.ltb_spec 1 (currentScene s)); [apply Hstore | lia].
  - intro Hne. unfold nextScene, bind, get.
    destruct (Z.ltb_spec (currentScene s) 3); [apply Hstore | lia].
Qed.

End Navigation.

Lemma navigation_in_bounds_witness :
  (1 <= currentScene loaded <= 3)%Z
  /\ (1 <= currentScene (final (previousScene loaded)) <= 3)%Z
  /\ (1 <= currentScene (final (nextScene loaded)) <= 3)%Z.
Proof.
  assert (Hin : (1 <= currentScene loaded <= 3)%Z) by (simpl; lia).
  split; [exact Hin|].
  destruct (@navigation_in_bounds float _ loaded Hin)
    as (Hprev & Hnext & _).
  split; [exact Hprev | exact Hnext].
Defined.

(** C3 as stated fails for the direct jump: on the three-scene page,
    [goToScene(7)] hides scene 1, stores 7 in [currentScene], then throws
    when it looks for [#scene-7]; the pointer is left at 7. *)
Lemma goToScene_out_of_range :
  goToScene 7 loaded = Thrown (final (goToScene 7 loaded))
  /\ currentScene (final (goToScene 7 loaded)) = 7%Z
  /\ ~ (1 <= currentScene (final (goToScene 7 loaded)) <= 3)%Z.
Proof.
  split; [vm_compute; reflexivity|].
  assert (Hscene : currentScene (final (goToScene 7 loaded)) = 7%Z)
    by (vm_compute; reflexivity).
  split; [exact Hscene|]. rewrite Hscene. lia.
Qed.

(** The scenes reached with the two buttons from the loaded page. *)
Example next_twice_then_stuck :
  currentScene (final (nextScene loaded)) = 2%Z
  /\ currentScene (final (nextScene (final (nextScene loaded)))) = 3%Z
  /\ currentScene
       (final (nextScene (final (nextScene (final (nextScene loaded))))))
     = 3%Z.
Proof. repeat split; vm_compute; reflexivity. Qed.

(** ** The colour vocabulary *)

(** However the shared ordinal scale has grown, the four income tiers keep
    their colours and looking one up does not change the scale. *)
Lemma income_scale_fixed (extra : list jsstr) :
  let o := {| D3.o_domain := D3.o_domain (income_scale) ++ extra;
              D3.o_range := D3.o_range (income_scale) |} in
  D3.ordinal_apply o (Str "Low income") = (Str "#dc2626", o)
  /\ D3.ordinal_apply o (Str "Lower middle income") = (Str "#d97706", o)
  /\ D3.ordinal_apply o (Str "Upper middle income") = (Str "#059669", o)
  /\ D3.ordinal_apply o (Str "High income") = (Str "#2563eb", o).
Proof. repeat split. Qed.

(** The scale only ever grows at the end of its domain. *)
Lemma ordinal_apply_extends (o : D3.ordinal) (g : jsstr) :
  exists extra,
    snd (D3.ordinal_apply o g)
    = {| D3.o_domain := D3.o_domain o ++ extra; D3.o_range := D3.o_range o |}.
Proof.
  unfold D3.ordinal_apply. destruct (D3.index_of g (D3.o_domain o)).
  - exists []. rewrite app_nil_r. destruct o; reflexivity.
  - exists [g]. reflexivity.
Qed.

(** C5, evaluated. On the loaded page the circles of scene 1 take their
    fill from [colors.income], where "High income" is [#2563eb] and "Lower
    middle income" is [#d97706]; the legend drawn beside them shows
    [#0ea5e9] and [#f59e0b] for the same two tiers. *)
Theorem legend_disagrees_with_marks :
  let chart := svg (final (renderScene1 loaded)) 1 in
  map (fun c => (country_name (datum c), income_group (datum c), fill c))
    (circles_of chart)
  = [ (Str "United States", Str "High income", Str "#2563eb");
      (Str "Germany", Str "High income", Str "#2563eb");
      (Str "South Africa", Str "Upper middle income", Str "#059669");
      (Str "Brazil", Str "Upper middle income", Str "#059669");
      (Str "India", Str "Lower middle income", Str "#d97706");
      (Str "China", Str "Upper middle income", Str "#059669");
      (Str "Nigeria", Str "Lower middle income", Str "#d97706");
      (Str "Thailand", Str "Upper middle income", Str "#059669");
      (Str "Kenya", Str "Lower middle income", Str "#d97706");
      (Str "Rwanda", Str "Low income", Str "#dc2626") ]
  /\ legend_of chart
     = [ ("#0ea5e9", "High income"); ("#059669", "Upper middle income");
         ("#f59e0b", "Lower middle income"); ("#dc2626", "Low income") ]%string.
Proof. split; vm_compute; reflexivity. Qed.

(** ** Empty data and scale domains *)

Section Placeholder.
Context {N : Type} `{Number N}.

Lemma income_color_returns (g : jsstr) (s : state N) :
  exists c s', income_color g s = Returned c s'.
Proof.
  unfold income_color, bind, get, modify, ret.
  destruct (D3.ordinal_apply (colors_income s) g) as [c o].
  eexists. eexists. reflexivity.
Qed.

(** One circle per datum, in every state. *)
Lemma draw_circles_length (rScale : D3.continuous)
  (ds : list (observation N)) (s : state N) :
  exists cs s',
    draw_circles rScale ds s = Returned cs s'
    /\ List.length cs = List.length ds.
Proof.
  unfold draw_circles. revert s.
  induction ds as [|d ds IH]; intro s; simpl.
  - exists [], s. split; reflexivity.
  - unfold bind at 1. unfold bind at 1.
    destruct (income_color_returns (income_group d) s) as (c & s1 & Hc).
    rewrite Hc. unfold ret at 1. unfold bind at 1.
    destruct (IH s1) as (cs & s2 & Hcs & Hlen). rewrite Hcs.
    eexists. eexists. split; [reflexivity|]. simpl. rewrite Hlen.
    reflexivity.
Qed.

(** What [put_svg] leaves in the [svg] it writes. *)
Lemma put_svg_content (k : Z) (c : rendering N) (s : state N) :
  exists s', put_svg k c s = Returned tt s' /\ svg s' k = Some c.
Proof.
  unfold put_svg, bind, get, modify. eexists. split; [reflexivity|].
  simpl. rewrite Z.eqb_refl. reflexivity.
Qed.

(** The two ends of a render: the placeholder when the list to draw is
    empty, and otherwise a chart with one circle per record of it. *)
Lemma chart_or_placeholder (k : Z) (msg : string)
  (ds : list (observation N)) (rScale : D3.continuous)
  (chart : list (circle N) -> rendering N) (s s' : state N) :
  (forall cs, circles_of (Some (chart cs)) = cs) ->
  (if Nat.eqb (List.length ds) 0
   then put_svg k (NoData msg)
   else bind (draw_circles rScale ds) (fun cs => put_svg k (chart cs))) s
  = Returned tt s' ->
  (ds = [] /\ svg s' k = Some (NoData msg))
  \/ (ds <> [] /\ List.length (circles_of (svg s' k)) = List.length ds).
Proof.
  intros Hchart Hrun.
  destruct ds as [|d ds]; cbn [List.length Nat.eqb] in Hrun.
  - left. split; [reflexivity|].
    destruct (put_svg_content k (NoData msg) s) as (s1 & Hput & Hsvg).
    rewrite Hput in Hrun. injection Hrun; intro Hs; subst s'. exact Hsvg.
  - right. split; [discriminate|]. unfold bind at 1 in Hrun.
    destruct (draw_circles_length rScale (d :: ds) s)
      as (cs & s1 & Hcs & Hlen).
    rewrite Hcs in Hrun.
    destruct (put_svg_content k (chart cs) s1) as (s2 & Hput & Hsvg).
    rewrite Hput in Hrun. injection Hrun; intro Hs; subst s'.
    rewrite Hsvg, Hchart. exact Hlen.
Qed.

(** The part of C8 that holds: a scene that finds nothing to draw shows its
    placeholder and builds no scale; a chart, and with it the three scales,
    is only built around at least one circle. *)
Lemma empty_scene_shows_placeholder (s s' : state N) :
  (renderScene1 s = Returned tt s' ->
   is_placeholder (svg s' 1) = true /\ domains_of (svg s' 1) = []
   \/ circles_of (svg s' 1) <> [])
  /\ (renderScene2 s = Returned tt s' ->
      is_placeholder (svg s' 2) = true /\ domains_of (svg s' 2) = []
      \/ circles_of (svg s' 2) <> [])
  /\ (renderScene3 s = Returned tt s' ->
      is_placeholder (svg s' 3) = true /\ domains_of (svg s' 3) = []
      \/ circles_of (svg s' 3) <> []).
Proof.
  assert (Hlen : forall (cs : list (circle N)) (ds : list (observation N)),
             ds <> [] -> List.length cs = List.length ds -> cs <> []).
  { intros cs ds Hds Hl ->. destruct ds; [congruence | discriminate]. }
  repeat split.
  - unfold renderScene1. unfold bind at 1. unfold hideLoading, bind at 1, get.
    destruct (scene_hidden s 1); [|discriminate].
    unfold ret at 1. unfold bind at 1.
    unfold bind at 1. rewrite filterData_one_pass.
    destruct (data s) as [ds|]; [|discriminate]. cbv zeta. intro Hrun.
    apply chart_or_placeholder in Hrun; [|reflexivity].
    destruct Hrun as [[_ Hsvg] | [Hne Hl]].
    + left. rewrite Hsvg. split; reflexivity.
    + right. eapply Hlen; eassumption.
  - unfold renderScene2. unfold bind at 1. unfold hideLoading, bind at 1, get.
    destruct (scene_hidden s 2); [|discriminate].
    unfold ret at 1. unfold bind at 1.
    unfold bind at 1. unfold this_data, bind at 1, get, spread.
    destruct (data s) as [ds|]; [|discriminate]. unfold ret at 1.
    cbv zeta. intro Hrun.
    apply chart_or_placeholder in Hrun; [|reflexivity].
    destruct Hrun as [[_ Hsvg] | [Hne Hl]].
    + left. rewrite Hsvg. split; reflexivity.
    + right. eapply Hlen; eassumption.
  - unfold renderScene3. unfold bind at 1. unfold hideLoading, bind at 1, get.
    destruct (scene_hidden s 3); [|discriminate].
    unfold ret at 1. unfold bind at 1.
    unfold this_data, bind at 1, get, spread.
    destruct (data s) as [ds|]; [|discriminate]. unfold ret at 1.
    cbv zeta. intro Hrun.
    apply chart_or_placeholder in Hrun; [|reflexivity].
    destruct Hrun as [[_ Hsvg] | [Hne Hl]].
    + left. rewrite Hsvg. split; reflexivity.
    + right. eapply Hlen; eassumption.
Qed.

End Placeholder.

(** C8, evaluated. On the loaded page scene 2 plots the enrollment metric.
    No record of the embedded data has that key, so [d[educationMetric]]
    is [undefined], which passes [!== null]: ten records are drawn, the
    placeholder is not shown, and the domain of the x scale is
    [[NaN, NaN]]. *)
Theorem scene2_domain_not_finite :
  let chart := svg (final (renderScene2 loaded)) 2 in
  is_placeholder chart = false
  /\ List.length (circles_of chart) = 10%nat
  /\ map (fun d => (isFinite (fst d), isFinite (snd d))) (domains_of chart)
     = [ (false, false); (true, true); (true, true) ]
  /\ map (fun c => secondary_school_enrollment (datum c)) (circles_of chart)
     = repeat Undefined 10.
Proof. repeat split; vm_compute; reflexivity. Qed.

(** The same scene on the literacy metric, which the embedded records
    carry: every domain is finite. *)
Example scene2_literacy_domains :
  map (fun d => (isFinite (fst d), isFinite (snd d)))
    (domains_of (svg (final (renderScene2 loaded_literacy)) 2))
  = [ (true, true); (true, true); (true, true) ].
Proof. vm_compute. reflexivity. Qed.

(** ** Binary64 numbers *)

Import Effects Line Annotations.

Section Binary64.
Local Open Scope float_scope.

Lemma float_of_SF (x : float) (v : spec_float) :
  Prim2SF x = v -> x = SF2Prim v.
Proof. intro Hx. rewrite <- Hx, SF2Prim_Prim2SF. reflexivity. Qed.

(** A number that compares equal to zero is one of the two zeros. *)
Lemma eqb_zero (c : float) : PrimFloat.eqb c 0 = true -> c = 0 \/ c = -0.
Proof.
  rewrite eqb_spec. change (Prim2SF 0) with (S754_zero false).
  destruct (Prim2SF c) as [sgn | sgn | | sgn m e] eqn:Hc; cbn.
  - intros _. apply float_of_SF in Hc. destruct sgn; [right | left]; exact Hc.
  - destruct sgn; discriminate.
  - discriminate.
  - destruct sgn; discriminate.
Qed.

(** [NaN] absorbs the four operations. *)
Lemma nan_add_l (x : float) : nan + x = nan.
Proof. apply Prim2SF_inj. rewrite add_spec. reflexivity. Qed.

Lemma nan_add_r (x : float) : x + nan = nan.
Proof.
  apply Prim2SF_inj. rewrite add_spec. change (Prim2SF nan) with S754_nan.
  unfold SF64add, SFadd. destruct (Prim2SF x) as [[]|[]| |]; reflexivity.
Qed.

Lemma nan_sub_l (x : float) : nan - x = nan.
Proof. apply Prim2SF_inj. rewrite sub_spec. reflexivity. Qed.

Lemma nan_sub_r (x : float) : x - nan = nan.
Proof.
  apply Prim2SF_inj. rewrite sub_spec. change (Prim2SF nan) with S754_nan.
  unfold SF64sub, SFsub. destruct (Prim2SF x) as [[]|[]| |]; reflexivity.
Qed.

Lemma nan_mul_l (x : float) : nan * x = nan.
Proof. apply Prim2SF_inj. rewrite mul_spec. reflexivity. Qed.

Lemma nan_mul_r (x : float) : x * nan = nan.
Proof.
  apply Prim2SF_inj. rewrite mul_spec. change (Prim2SF nan) with S754_nan.
  unfold SF64mul, SFmul. destruct (Prim2SF x) as [[]|[]| |]; reflexivity.
Qed.

Lemma nan_div_l (x : float) : nan / x = nan.
Proof. apply Prim2SF_inj. rewrite div_spec. reflexivity. Qed.

Lemma nan_div_r (x : float) : x / nan = nan.
Proof.
  apply Prim2SF_inj. rewrite div_spec. change (Prim2SF nan) with S754_nan.
  unfold SF64div, SFdiv. destruct (Prim2SF x) as [[]|[]| |]; reflexivity.
Qed.

(** [x === x] fails for [NaN] only; where it holds, [x <= x] holds and
    [x < x] does not. *)
Lemma eqb_refl_leb (x : float) :
  PrimFloat.eqb x x = true -> PrimFloat.leb x x = true.
Proof.
  rewrite eqb_spec, leb_spec. unfold SFeqb, SFleb.
  destruct (SFcompare (Prim2SF x) (Prim2SF x)) as [[]|]; congruence.
Qed.

Lemma eqb_refl_ltb (x : float) :
  PrimFloat.eqb x x = true -> PrimFloat.ltb x x = false.
Proof.
  rewrite eqb_spec, ltb_spec. unfold SFeqb, SFltb.
  destruct (SFcompare (Prim2SF x) (Prim2SF x)) as [[]|]; congruence.
Qed.

(** A zero divided by a number that is neither zero nor [NaN] is a zero. *)
Lemma zero_div (z c : float) :
  z = 0 \/ z = -0 ->
  PrimFloat.eqb c 0 = false -> PrimFloat.eqb c c = true ->
  z / c = 0 \/ z / c = -0.
Proof.
  intros Hz Hc0 Hcc.
  assert (Hsf : exists sgn, Prim2SF (z / c) = S754_zero sgn).
  { rewrite div_spec. rewrite eqb_spec in Hc0, Hcc.
    change (Prim2SF 0) with (S754_zero false) in Hc0.
    assert (Hz' : exists sz, Prim2SF z = S754_zero sz).
    { destruct Hz as [-> | ->]; [exists false | exists true]; reflexivity. }
    destruct Hz' as [sz ->].
    destruct (Prim2SF c) as [sc | sc | | sc m e]; cbn in *.
    - discriminate.
    - eexists; reflexivity.
    - discriminate.
    - eexists; reflexivity. }
  destruct Hsf as [sgn Hsf]. apply float_of_SF in Hsf.
  destruct sgn; [right | left]; exact Hsf.
Qed.

(** A number with [x - x === 0] is a zero or a finite number. *)
Lemma finite_cases (x : float) :
  PrimFloat.eqb (x - x) 0 = true ->
  (exists sgn, Prim2SF x = S754_zero sgn)
  \/ (exists sgn m e, Prim2SF x = S754_finite sgn m e).
Proof.
  rewrite eqb_spec, sub_spec. change (Prim2SF 0) with (S754_zero false).
  destruct (Prim2SF x) as [sgn | sgn | | sgn m e]; cbn.
  - intros _. left. eexists; reflexivity.
  - destruct sgn; discriminate.
  - discriminate.
  - intros _. right. do 3 eexists; reflexivity.
Qed.

(** A finite number that is not zero, divided by itself, is one: the
    quotient of the mantissas is exact. *)
Lemma div_diag (c : float) :
  PrimFloat.eqb (c - c) 0 = true -> PrimFloat.eqb c 0 = false -> c / c = 1.
Proof.
  intros Hfin Hc0.
  destruct (finite_cases Hfin) as [[sgn Hc] | (sgn & m & e & Hc)].
  - rewrite eqb_spec, Hc in Hc0. discriminate.
  - apply Prim2SF_inj. rewrite div_spec, Hc.
    unfold SF64div, SFdiv, SFdiv_core_binary.
    rewrite Z.sub_diag, Z.sub_diag.
    change (fexp prec emax 0) with (-53)%Z.
    change (Z.min (-53) 0) with (-53)%Z.
    change (0 - -53)%Z with 53%Z. cbv iota beta zeta.
    rewrite Z.shiftl_mul_pow2 by lia.
    assert (Hdiv : Z.div_eucl (Z.pos m * 2 ^ 53) (Z.pos m) = (2 ^ 53, 0)%Z).
    { pose proof (Z.div_mul (2 ^ 53) (Z.pos m) ltac:(lia)) as Hq.
      pose proof (Z.mod_mul (2 ^ 53) (Z.pos m) ltac:(lia)) as Hr.
      rewrite Z.mul_comm in Hq, Hr.
      unfold Z.div, Z.modulo in Hq, Hr.
      destruct (Z.div_eucl (Z.pos m * 2 ^ 53) (Z.pos m)) as [q r0].
      simpl in Hq, Hr. rewrite Hq, Hr. reflexivity. }
    rewrite Hdiv.
    assert (Hloc : new_location (Z.pos m) 0 = loc_Exact).
    { unfold new_location. destruct (Z.even (Z.pos m)); reflexivity. }
    rewrite Hloc. rewrite xorb_nilpotent. reflexivity.
Qed.

End Binary64.

(** ** The trend line *)

Section TrendLine.
Context {N : Type} `{Number N}.


(** From three points on, [addTrendLine] draws the fitted line: the path
    holds the 51 samples of [y = slope x + intercept] between the ends of
    the extent of the x column, sent through the two scales. *)
Lemma addTrendLine_draws (data : list (observation N))
  (xField yField : string) (xScale yScale : D3.continuous) :
  (3 <= List.length (trend_points data xField yField))%nat ->
  let validData := trend_points data xField yField in
  addTrendLine data xField yField xScale yScale
  = Some (sampled_line
            (to_number (fst (D3.extent validData (field xField))))
            (to_number (snd (D3.extent validData (field xField))))
            (fst (regression validData xField yField))
            (snd (regression validData xField yField))
            xScale yScale).
Proof.
  intros Hlen validData. unfold addTrendLine. cbv zeta.
  destruct (Nat.ltb_spec (List.length (trend_points data xField yField)) 3)
    as [Hlt | Hge]; [lia|].
  fold validData.
  destruct (regression validData xField yField) as [slope intercept].
  unfold sampled_line. rewrite map_map. reflexivity.
Qed.





End TrendLine.

(** *** Every small dataset on the line *)





(** C10. The three United States records of the embedded data have both
    plotted fields of scene 3 and the same literacy, 99: the guard lets
    them through, the sum of squared deviations is 0, the slope, [0 / 0],
    is [NaN], and [addTrendLine] goes on to draw with it: whatever the
    scales, the path it appends has 51 points and not one of them has an
    ordinate. *)
Theorem slope_division_unguarded :
  exists data : list (observation float),
    let xField := "adult_literacy_rate"%string in
    let yField := "condom_use_average"%string in
    let validData := trend_points data xField yField in
    (3 <= List.length validData)%nat
    /\ map (field xField) validData
       = [Num 99%float; Num 99%float; Num 99%float]
    /\ snd (deviations validData xField yField
              (D3.mean validData (field xField))
              (D3.mean validData (field yField))) = 0%float
    /\ isFinite (fst (regression validData xField yField)) = false
    /\ forall xScale yScale,
         exists path,
           addTrendLine data xField yField xScale yScale = Some path
           /\ List.length path = 51%nat
           /\ map snd path = repeat Undefined 51
           /\ map fst path
              = map (fun i => D3.scale xScale (Num 99%float)) (seq 0 51).
Proof.
  exists united_states. cbv zeta.
  split; [vm_compute; lia|].
  split; [vm_compute; reflexivity|].
  split; [vm_compute; reflexivity|].
  split; [vm_compute; reflexivity|].
  intros xScale yScale. eexists.
  split; [apply addTrendLine_draws; vm_compute; lia|].
  split; [reflexivity|].
  split; vm_compute; reflexivity.
Qed.




(** The example of the specification in binary64: on the five points
    [x = 1, ..., 5] of the line the slope is 2 and the intercept 1, with no
    rounding error at all. *)
Example five_points_binary64 :
  regression (Samples.on_line (N := float))
    "adult_literacy_rate" "condom_use_average"
  = (2%float, 1%float).
Proof. vm_compute. reflexivity. Qed.

(** Rounding can take the fit far from the line.  The three records of
    [far_out] lie exactly on [y = 2x + 1] at three distinct abscissas near
    [2^51]; the mean of the abscissas is rounded, and the slope comes out
    below 1.9 and the intercept above [10^14]. *)
Example far_out_is_not_fitted :
  let xField := "adult_literacy_rate"%string in
  let yField := "condom_use_average"%string in
  map (field xField) far_out
  = [ Num 2251799813685249%float; Num 2251799813685250%float;
      Num 2251799813685252%float ]
  /\ map (field yField) far_out
     = [ Num 4503599627370499%float; Num 4503599627370501%float;
         Num 4503599627370505%float ]
  /\ trend_points far_out xField yField = far_out
  /\ (fst (regression far_out xField yField) <? dec 19 1)%float = true
  /\ (of_Z (10 ^ 14) <? snd (regression far_out xField yField))%float = true
  /\ within_tolerance (fst (regression far_out xField yField)) 2 = false
  /\ within_tolerance (snd (regression far_out xField yField)) 1 = false.
Proof. cbv zeta. repeat split; vm_compute; reflexivity. Qed.

(** One record without the x key among the points is enough to lose the
    line: [undefined !== null], so the record is a trend point, and the
    means, the slope and the intercept are all [NaN]. *)
Example one_missing_key_among_the_points :
  let xField := "adult_literacy_rate"%string in
  let yField := "condom_use_average"%string in
  List.length (trend_points on_line_and_one_without_x xField yField) = 6%nat
  /\ regression (trend_points on_line_and_one_without_x xField yField)
       xField yField
     = (nan, nan).
Proof. cbv zeta. split; vm_compute; reflexivity. Qed.

(** ** The shared colour scale *)

Lemma jsstr_eqb_refl (g : jsstr) : jsstr_eqb g g = true.
Proof. destruct g; simpl; try reflexivity. apply String.eqb_refl. Qed.

Lemma jsstr_eqb_eq (g h : jsstr) : jsstr_eqb g h = true -> g = h.
Proof.
  destruct g, h; simpl; try discriminate; try reflexivity.
  intro Heq. apply String.eqb_eq in Heq. congruence.
Qed.

Lemma index_of_app (g : jsstr) (dom extra : list jsstr) (i : nat) :
  D3.index_of g dom = Some i -> D3.index_of g (dom ++ extra) = Some i.
Proof.
  revert i. induction dom as [|k dom IH]; intros i; simpl; [discriminate|].
  destruct (jsstr_eqb k g); [trivial|].
  destruct (D3.index_of g dom) as [j|]; [|discriminate].
  intro Hi. rewrite (IH j eq_refl). exact Hi.
Qed.

Lemma index_of_snoc (g : jsstr) (dom : list jsstr) :
  D3.index_of g dom = None ->
  D3.index_of g (dom ++ [g]) = Some (List.length dom).
Proof.
  induction dom as [|k dom IH]; simpl.
  - intros _. rewrite jsstr_eqb_refl. reflexivity.
  - destruct (jsstr_eqb k g); [discriminate|].
    destruct (D3.index_of g dom); [discriminate|].
    intros _. rewrite IH by reflexivity. reflexivity.
Qed.

Lemma extends_refl (o : D3.ordinal) : extends o o.
Proof. exists []. rewrite app_nil_r. split; reflexivity. Qed.

Lemma extends_trans (o1 o2 o3 : D3.ordinal) :
  extends o1 o2 -> extends o2 o3 -> extends o1 o3.
Proof.
  intros (e1 & Hd1 & Hr1) (e2 & Hd2 & Hr2). exists (e1 ++ e2).
  rewrite Hd2, Hd1, Hr2, Hr1, app_assoc. split; reflexivity.
Qed.

Lemma ordinal_apply_grows (o : D3.ordinal) (g : jsstr) :
  extends o (snd (D3.ordinal_apply o g)).
Proof.
  unfold D3.ordinal_apply. destruct (D3.index_of g (D3.o_domain o)).
  - apply extends_refl.
  - exists [g]. split; reflexivity.
Qed.

Lemma lookups_grow (keys : list jsstr) (o : D3.ordinal) :
  extends o (lookups o keys).
Proof.
  unfold lookups. revert o.
  induction keys as [|g keys IH]; intro o; simpl.
  - apply extends_refl.
  - eapply extends_trans; [apply ordinal_apply_grows | apply IH].
Qed.

(** A key that has been looked up once is in the domain, at the index its
    colour was read from. *)
Lemma ordinal_apply_known (o : D3.ordinal) (g : jsstr) :
  exists i,
    D3.index_of g (D3.o_domain (snd (D3.ordinal_apply o g))) = Some i
    /\ fst (D3.ordinal_apply o g) = D3.range_at o i.
Proof.
  unfold D3.ordinal_apply.
  destruct (D3.index_of g (D3.o_domain o)) as [i|] eqn:Hi; simpl.
  - exists i. split; [exact Hi | reflexivity].
  - exists (List.length (D3.o_domain o)). split; [|reflexivity].
    apply index_of_snoc. exact Hi.
Qed.

Lemma ordinal_apply_stable (o o1 o2 : D3.ordinal) (g c : jsstr) :
  D3.ordinal_apply o g = (c, o1) ->
  extends o1 o2 ->
  D3.ordinal_apply o2 g = (c, o2).
Proof.
  intros Happly (extra & Hdom & Hrange).
  destruct (ordinal_apply_known o g) as (i & Hi & Hc).
  rewrite Happly in Hi, Hc. simpl in Hi, Hc.
  assert (Hr1 : D3.o_range o1 = D3.o_range o).
  { destruct (ordinal_apply_grows o g) as (e & _ & Hr).
    rewrite Happly in Hr. exact Hr. }
  unfold D3.ordinal_apply. rewrite Hdom, (index_of_app _ _ extra Hi).
  f_equal. rewrite Hc. unfold D3.range_at. rewrite Hrange, Hr1. reflexivity.
Qed.

(** X1. Once [colors.income] has given a key its colour, the key keeps it:
    whatever keys are looked up afterwards, in whatever order, looking the
    first one up again returns the same colour and no longer changes the
    scale. *)
Theorem colour_once_assigned_is_kept (o o1 : D3.ordinal) (g c : jsstr)
  (later : list jsstr) :
  D3.ordinal_apply o g = (c, o1) ->
  D3.ordinal_apply (lookups o1 later) g = (c, lookups o1 later).
Proof.
  intro Happly. eapply ordinal_apply_stable; [exact Happly|].
  apply lookups_grow.
Qed.

Lemma colour_once_assigned_is_kept_witness :
  D3.ordinal_apply income_scale SNull
  = (Str "#dc2626",
     {| D3.o_domain := D3.o_domain income_scale ++ [SNull];
        D3.o_range := D3.o_range income_scale |})
  /\ fst (D3.ordinal_apply
            (lookups
               {| D3.o_domain := D3.o_domain income_scale ++ [SNull];
                  D3.o_range := D3.o_range income_scale |}
               [Str "Unclassified"; Str "High income"; SUndefined])
            SNull)
     = Str "#dc2626".
Proof.
  split; [reflexivity|].
  rewrite (@colour_once_assigned_is_kept income_scale _ SNull (Str "#dc2626")
             [Str "Unclassified"; Str "High income"; SUndefined] eq_refl).
  reflexivity.
Defined.

(** X2. The scale has four colours for four tiers, and a key outside the
    tiers is appended to the domain and takes the colour at its index
    modulo four.  So the first income group the constructor does not list,
    [null] included, is drawn in the colour of "Low income", and the second
    in that of "Lower middle income". *)
Theorem unlisted_group_shares_a_tier_colour (g h : jsstr) :
  D3.index_of g (D3.o_domain income_scale) = None ->
  D3.index_of h (D3.o_domain income_scale) = None ->
  jsstr_eqb g h = false ->
  let o1 := snd (D3.ordinal_apply income_scale g) in
  fst (D3.ordinal_apply income_scale g)
  = fst (D3.ordinal_apply income_scale (Str "Low income"))
  /\ fst (D3.ordinal_apply o1 h)
     = fst (D3.ordinal_apply o1 (Str "Lower middle income")).
Proof.
  intros Hg Hh Hgh o1. unfold o1, D3.ordinal_apply. rewrite Hg.
  split; [reflexivity|].
  cbn [snd D3.o_domain D3.o_range fst].
  assert (Hh1 : D3.index_of h (D3.o_domain income_scale ++ [g]) = None).
  { simpl in Hh |- *.
    repeat match type of Hh with
           | context [if ?b then _ else _] => destruct b; [discriminate|]
           end.
    rewrite Hgh. reflexivity. }
  rewrite Hh1. reflexivity.
Qed.

Lemma unlisted_group_shares_a_tier_colour_witness :
  fst (D3.ordinal_apply income_scale SNull) = Str "#dc2626"
  /\ fst (D3.ordinal_apply (snd (D3.ordinal_apply income_scale SNull))
            (Str "Not classified"))
     = Str "#d97706".
Proof.
  destruct (@unlisted_group_shares_a_tier_colour SNull (Str "Not classified")
              eq_refl eq_refl eq_refl) as [Hfirst Hsecond].
  split; [rewrite Hfirst | rewrite Hsecond]; reflexivity.
Defined.

(** ** What a render changes *)

Section Renders.
Context {N : Type} `{Number N}.

Lemma set_colors_income_same (s : state N) :
  set_colors_income (colors_income s) s = s.
Proof. destruct s. reflexivity. Qed.

Lemma paint_datum (rScale : D3.continuous) (ds : list (observation N))
  (o : D3.ordinal) :
  map datum (fst (paint rScale o ds)) = ds.
Proof.
  revert o. induction ds as [|d ds IH]; intro o; simpl; [reflexivity|].
  destruct (D3.ordinal_apply o (income_group d)) as [c o1].
  specialize (IH o1). destruct (paint rScale o1 ds) as [cs o2].
  simpl in *. rewrite IH. reflexivity.
Qed.

Lemma paint_lookups (rScale : D3.continuous) (ds : list (observation N))
  (o : D3.ordinal) :
  snd (paint rScale o ds) = lookups o (map income_group ds).
Proof.
  revert o. induction ds as [|d ds IH]; intro o; simpl; [reflexivity|].
  unfold lookups. simpl.
  destruct (D3.ordinal_apply o (income_group d)) as [c o1].
  specialize (IH o1). destruct (paint rScale o1 ds) as [cs o2].
  simpl in *. exact IH.
Qed.

(** Painting again from the scale the first painting left gives the same
    circles and leaves the scale alone. *)
Lemma paint_again (rScale : D3.continuous) (ds : list (observation N))
  (o : D3.ordinal) :
  forall o', extends (snd (paint rScale o ds)) o' ->
             paint rScale o' ds = (fst (paint rScale o ds), o').
Proof.
  revert o. induction ds as [|d ds IH]; intros o o' Hext; [reflexivity|].
  simpl in Hext |- *.
  destruct (D3.ordinal_apply o (income_group d)) as [c o1] eqn:Happly.
  specialize (IH o1).
  assert (Hgrow : extends o1 (snd (paint rScale o1 ds)))
    by (rewrite paint_lookups; apply lookups_grow).
  destruct (paint rScale o1 ds) as [cs o2]. simpl in *.
  rewrite (@ordinal_apply_stable _ _ _ _ _ Happly (extends_trans Hgrow Hext)).
  rewrite (IH o' Hext). reflexivity.
Qed.

Lemma draw_circles_paint (rScale : D3.continuous)
  (ds : list (observation N)) (s : state N) :
  draw_circles rScale ds s
  = Returned (fst (paint rScale (colors_income s) ds))
      (set_colors_income (snd (paint rScale (colors_income s) ds)) s).
Proof.
  unfold draw_circles. revert s.
  induction ds as [|d ds IH]; intro s.
  - simpl. unfold ret. rewrite set_colors_income_same. reflexivity.
  - cbn [mapM paint]. unfold bind at 1. unfold bind at 1.
    unfold income_color at 1. unfold bind at 1. unfold get at 1.
    destruct (D3.ordinal_apply (colors_income s) (income_group d))
      as [c o1].
    unfold bind at 1. unfold modify at 1. unfold ret at 1. unfold ret at 1.
    unfold bind at 1. rewrite IH. cbn [colors_income set_colors_income].
    destruct (paint rScale o1 ds) as [cs o2]. reflexivity.
Qed.

(** The end of every render: the placeholder, or the chart around the
    circles painted for [ds]. *)
Lemma render_end (k : Z) (msg : string) (ds : list (observation N))
  (rScale : D3.continuous) (chart : list (circle N) -> rendering N)
  (s : state N) :
  (if Nat.eqb (List.length ds) 0
   then put_svg k (NoData msg)
   else bind (draw_circles rScale ds) (fun cs => put_svg k (chart cs))) s
  = Returned tt
      (rendered k
         (match ds with
          | [] => NoData msg
          | _ :: _ => chart (fst (paint rScale (colors_income s) ds))
          end)
         (snd (paint rScale (colors_income s) ds)) s).
Proof.
  destruct ds as [|d ds]; cbn [List.length Nat.eqb].
  - unfold put_svg, bind, get, modify, rendered. cbn [paint snd].
    rewrite set_colors_income_same. reflexivity.
  - unfold bind at 1. rewrite draw_circles_paint.
    unfold put_svg, bind, get, modify, rendered. reflexivity.
Qed.

End Renders.

Section Scenes.
Context {N : Type} `{Number N}.

(** Each render as a function of what it reads.  A render throws, leaving
    the state alone, when the scene's container or the dataset is missing;
    otherwise it stores the placeholder or a chart in its [svg] and leaves
    the colour scale as painting the scene's records left it.  The circles
    are painted with the scene's radius scale, and the rest of the chart
    depends on the records drawn only (and, in scene 2, on the metric). *)
Lemma renderScene1_effect :
  exists (chart : list (observation N) -> list (circle N) -> rendering N),
    (forall recs cs, circles_of (Some (chart recs cs)) = cs)
    /\ (forall recs cs, is_placeholder (Some (chart recs cs)) = false)
    /\ forall s : state N,
         renderScene1 s =
         match scene_hidden s 1, data s with
         | Some _, Some ds =>
             let recs := scene1_records s ds in
             Returned tt
               (rendered 1
                  (match recs with
                   | [] => NoData "No data available for the selected filters"
                   | _ :: _ =>
                       chart recs
                         (fst (paint (rScale_of 1 recs) (colors_income s) recs))
                   end)
                  (snd (paint (rScale_of 1 recs) (colors_income s) recs)) s)
         | _, _ => Thrown s
         end.
Proof.
  exists (fun recs cs =>
            Chart
              (Math_max (to_number (fst (D3.extent recs income_per_capita)))
                 (of_Z 100),
               to_number (snd (D3.extent recs income_per_capita)))
              (D3.domain (D3.scaleSqrt (hiv_domain recs) (height, of_Z 0)))
              (D3.domain
                 (D3.scaleSqrt (population_extent recs) (of_Z 3, of_Z 25)))
              cs None addIncomeLegend).
  split; [reflexivity|]. split; [reflexivity|]. intro s.
  unfold renderScene1. unfold bind at 1. unfold hideLoading, bind at 1, get.
  destruct (scene_hidden s 1); [|reflexivity].
  unfold ret at 1. unfold bind at 1. unfold bind at 1.
  rewrite filterData_one_pass.
  destruct (data s) as [ds|]; [|reflexivity]. cbv zeta.
  rewrite render_end. reflexivity.
Qed.

Lemma renderScene2_effect :
  exists (chart : string -> list (observation N) -> list (circle N)
                  -> rendering N),
    (forall m recs cs, circles_of (Some (chart m recs cs)) = cs)
    /\ (forall m recs cs, is_placeholder (Some (chart m recs cs)) = false)
    /\ forall s : state N,
         renderScene2 s =
         match scene_hidden s 2, data s with
         | Some _, Some ds =>
             let recs := scene2_records s ds in
             Returned tt
               (rendered 2
                  (match recs with
                   | [] => NoData "Limited education data available"
                   | _ :: _ =>
                       chart (scene2_metric s) recs
                         (fst (paint (rScale_of 2 recs) (colors_income s) recs))
                   end)
                  (snd (paint (rScale_of 2 recs) (colors_income s) recs)) s)
         | _, _ => Thrown s
         end.
Proof.
  exists (fun m recs cs =>
            Chart
              (D3.domain
                 (D3.scaleLinear (D3.extent recs (field m)) (of_Z 0, width)))
              (D3.domain (D3.scaleSqrt (hiv_domain recs) (height, of_Z 0)))
              (D3.domain
                 (D3.scaleSqrt (population_extent recs) (of_Z 4, of_Z 20)))
              cs
              (addTrendLine recs m "hiv_incidence_rate"
                 (D3.scaleLinear (D3.extent recs (field m)) (of_Z 0, width))
                 (D3.scaleSqrt (hiv_domain recs) (height, of_Z 0)))
              addIncomeLegend).
  split; [reflexivity|]. split; [reflexivity|]. intro s.
  unfold renderScene2. unfold bind at 1. unfold hideLoading, bind at 1, get.
  destruct (scene_hidden s 2); [|reflexivity].
  unfold ret at 1. unfold bind at 1. unfold bind at 1.
  unfold this_data, bind at 1, get, spread.
  destruct (data s) as [ds|]; [|reflexivity]. unfold ret at 1. cbv zeta.
  rewrite render_end. reflexivity.
Qed.

Lemma renderScene3_effect :
  exists (chart : list (observation N) -> list (circle N) -> rendering N),
    (forall recs cs, circles_of (Some (chart recs cs)) = cs)
    /\ (forall recs cs, is_placeholder (Some (chart recs cs)) = false)
    /\ forall s : state N,
         renderScene3 s =
         match scene_hidden s 3, data s with
         | Some _, Some ds =>
             let recs := scene3_records ds in
             Returned tt
               (rendered 3
                  (match recs with
                   | [] => NoData "Limited behavioral data available"
                   | _ :: _ =>
                       chart recs
                         (fst (paint (rScale_of 3 recs) (colors_income s) recs))
                   end)
                  (snd (paint (rScale_of 3 recs) (colors_income s) recs)) s)
         | _, _ => Thrown s
         end.
Proof.
  exists (fun recs cs =>
            Chart
              (D3.domain
                 (D3.scaleLinear (D3.extent recs adult_literacy_rate)
                    (of_Z 0, width)))
              (D3.domain
                 (D3.scaleLinear (D3.extent recs condom_use_average)
                    (height, of_Z 0)))
              (D3.domain
                 (D3.scaleSqrt (population_extent recs) (of_Z 4, of_Z 20)))
              cs
              (addTrendLine recs "adult_literacy_rate" "condom_use_average"
                 (D3.scaleLinear (D3.extent recs adult_literacy_rate)
                    (of_Z 0, width))
                 (D3.scaleLinear (D3.extent recs condom_use_average)
                    (height, of_Z 0)))
              addIncomeLegend).
  split; [reflexivity|]. split; [reflexivity|]. intro s.
  unfold renderScene3. unfold bind at 1. unfold hideLoading, bind at 1, get.
  destruct (scene_hidden s 3); [|reflexivity].
  unfold ret at 1. unfold bind at 1.
  unfold this_data, bind at 1, get, spread.
  destruct (data s) as [ds|]; [|reflexivity]. unfold ret at 1. cbv zeta.
  rewrite render_end. reflexivity.
Qed.

End Scenes.

Section SceneProperties.
Context {N : Type} `{Number N}.

Lemma render_only_refl (k : Z) (s : state N) : render_only k s s.
Proof.
  unfold render_only, same_inputs, same_page.
  repeat split; auto using extends_refl.
Qed.

Lemma render_only_rendered (k : Z) (c : rendering N) (o : D3.ordinal)
  (s : state N) :
  extends (colors_income s) o -> render_only k s (rendered k c o s).
Proof.
  intro Hext. unfold render_only, same_inputs, same_page, rendered.
  repeat split; try reflexivity; [|exact Hext].
  intros j Hj. simpl. unfold upd.
  destruct (Z.eqb_spec j k); [contradiction | reflexivity].
Qed.

Lemma paint_grows (rScale : D3.continuous) (ds : list (observation N))
  (o : D3.ordinal) :
  extends o (snd (paint rScale o ds)).
Proof. rewrite paint_lookups. apply lookups_grow. Qed.

(** X3. A render changes the content of its own [svg] and may add keys to
    the colour scale; it changes nothing else.  The dataset, the four
    controls, the scene pointer, the visibility of the scenes, the buttons,
    the dots and the other two [svg]s are as they were, whether the render
    returns or throws. *)
Theorem render_changes_its_own_svg_only (s : state N) :
  render_only 1 s (final (renderScene1 s))
  /\ render_only 2 s (final (renderScene2 s))
  /\ render_only 3 s (final (renderScene3 s)).
Proof.
  destruct renderScene1_effect as (c1 & _ & _ & H1).
  destruct renderScene2_effect as (c2 & _ & _ & H2).
  destruct renderScene3_effect as (c3 & _ & _ & H3).
  rewrite H1, H2, H3.
  split; [|split].
  - destruct (scene_hidden s 1); [|apply render_only_refl].
    destruct (data s); [|apply render_only_refl].
    apply render_only_rendered, paint_grows.
  - destruct (scene_hidden s 2); [|apply render_only_refl].
    destruct (data s); [|apply render_only_refl].
    apply render_only_rendered, paint_grows.
  - destruct (scene_hidden s 3); [|apply render_only_refl].
    destruct (data s); [|apply render_only_refl].
    apply render_only_rendered, paint_grows.
Qed.

Lemma svg_rendered (k : Z) (c : rendering N) (o : D3.ordinal)
  (s : state N) :
  svg (rendered k c o s) k = Some c.
Proof. simpl. unfold upd. rewrite Z.eqb_refl. reflexivity. Qed.

(** What is in the [svg] after a render, read against the records. *)
Lemma drawn_records (chart : list (circle N) -> rendering N)
  (rScale : D3.continuous) (msg : string) (o : D3.ordinal)
  (recs : list (observation N)) :
  (forall cs, circles_of (Some (chart cs)) = cs) ->
  (forall cs, is_placeholder (Some (chart cs)) = false) ->
  let c := match recs with
           | [] => NoData msg
           | _ :: _ => chart (fst (paint rScale o recs))
           end in
  map datum (circles_of (Some c)) = recs
  /\ (is_placeholder (Some c) = true <-> recs = []).
Proof.
  intros Hcircles Hchart c. unfold c. destruct recs as [|d recs].
  - split; [reflexivity|]. split; reflexivity.
  - rewrite Hcircles, Hchart, paint_datum. split; [reflexivity|].
    split; discriminate.
Qed.

(** X4. Each scene draws one circle per record it selects, in the order of
    the dataset, and shows its placeholder exactly when it selects none.
    Scene 1 selects the records [filterData] returns for its year and
    region that have an income and an HIV rate of at least 0; scene 2 the
    records of its year with the metric, the HIV rate and the income
    different from [null]; scene 3 the records from 2010 on with condom
    use and literacy different from [null]. *)
Theorem scenes_draw_their_records (s : state N)
  (ds : list (observation N)) :
  data s = Some ds ->
  (forall s', renderScene1 s = Returned tt s' ->
     map datum (circles_of (svg s' 1)) = scene1_records s ds
     /\ (is_placeholder (svg s' 1) = true <-> scene1_records s ds = []))
  /\ (forall s', renderScene2 s = Returned tt s' ->
        map datum (circles_of (svg s' 2)) = scene2_records s ds
        /\ (is_placeholder (svg s' 2) = true <-> scene2_records s ds = []))
  /\ (forall s', renderScene3 s = Returned tt s' ->
        map datum (circles_of (svg s' 3)) = scene3_records ds
        /\ (is_placeholder (svg s' 3) = true <-> scene3_records ds = [])).
Proof.
  intro Hdata.
  destruct renderScene1_effect as (c1 & Hc1 & Hp1 & H1).
  destruct renderScene2_effect as (c2 & Hc2 & Hp2 & H2).
  destruct renderScene3_effect as (c3 & Hc3 & Hp3 & H3).
  split; [|split]; intros s' Hrun.
  - rewrite H1, Hdata in Hrun.
    destruct (scene_hidden s 1); [|discriminate].
    cbv zeta in Hrun. injection Hrun; intro Hs; subst s'.
    rewrite svg_rendered.
    apply (drawn_records (c1 (scene1_records s ds)) _ _ _ _
             (Hc1 _) (Hp1 _)).
  - rewrite H2, Hdata in Hrun.
    destruct (scene_hidden s 2); [|discriminate].
    cbv zeta in Hrun. injection Hrun; intro Hs; subst s'.
    rewrite svg_rendered.
    apply (drawn_records (c2 (scene2_metric s) (scene2_records s ds)) _ _ _ _
             (Hc2 _ _) (Hp2 _ _)).
  - rewrite H3, Hdata in Hrun.
    destruct (scene_hidden s 3); [|discriminate].
    cbv zeta in Hrun. injection Hrun; intro Hs; subst s'.
    rewrite svg_rendered.
    apply (drawn_records (c3 (scene3_records ds)) _ _ _ _
             (Hc3 _) (Hp3 _)).
Qed.

(** X5. Scene 3 reads no control: on two pages that hold the same dataset
    and the same colour scale and both have the scene's container, it
    leaves the same content in its [svg], whatever the sliders and the
    selectors hold. *)
Theorem scene3_ignores_the_controls (s s' : state N)
  (ds : list (observation N)) :
  data s = Some ds ->
  data s' = Some ds ->
  colors_income s' = colors_income s ->
  scene_hidden s 3 <> None ->
  scene_hidden s' 3 <> None ->
  svg (final (renderScene3 s')) 3 = svg (final (renderScene3 s)) 3.
Proof.
  intros Hdata Hdata' Hcolors Hs Hs'.
  destruct renderScene3_effect as (c3 & _ & _ & H3).
  rewrite !H3, Hdata, Hdata', Hcolors.
  destruct (scene_hidden s 3); [|congruence].
  destruct (scene_hidden s' 3); [|congruence].
  cbv zeta. cbn [final]. rewrite !svg_rendered. reflexivity.
Qed.

Lemma renderCurrentScene_cases (s : state N) :
  renderCurrentScene s =
  match data s with
  | None => Returned tt s
  | Some _ =>
      if Z.eqb (currentScene s) 1 then renderScene1 s
      else if Z.eqb (currentScene s) 2 then renderScene2 s
      else if Z.eqb (currentScene s) 3 then renderScene3 s
      else Returned tt s
  end.
Proof.
  unfold renderCurrentScene, bind, get. destruct (data s); [|reflexivity].
  repeat match goal with
         | |- context [if ?b then _ else _] => destruct b
         end; reflexivity.
Qed.

Lemma same_state_refl (s : state N) : same_state s s.
Proof. unfold same_state, same_inputs, same_page. repeat split; auto. Qed.

(** Rendering a scene in the state its own render left. *)
Lemma rendered_again (k : Z) (msg : string) (rScale : D3.continuous)
  (chart : list (circle N) -> rendering N) (recs : list (observation N))
  (s : state N) :
  let c o := match recs with
             | [] => NoData msg
             | _ :: _ => chart (fst (paint rScale o recs))
             end in
  let s1 := rendered k (c (colors_income s))
              (snd (paint rScale (colors_income s) recs)) s in
  same_state s1
    (rendered k (c (colors_income s1))
       (snd (paint rScale (colors_income s1) recs)) s1).
Proof.
  intros c s1.
  assert (Hpaint :
    paint rScale (colors_income s1) recs
    = (fst (paint rScale (colors_income s) recs), colors_income s1)).
  { apply (paint_again rScale recs (colors_income s)). apply extends_refl. }
  assert (Hc : c (colors_income s1) = c (colors_income s)).
  { unfold c. destruct recs; [reflexivity|]. rewrite Hpaint. reflexivity. }
  rewrite Hpaint, Hc. cbn [snd].
  unfold same_state, same_inputs, same_page.
  repeat split; try reflexivity.
  intro j. unfold rendered at 1. cbn [svg set_svg]. unfold upd at 1.
  destruct (Z.eqb_spec j k) as [-> | Hj]; [|reflexivity].
  unfold s1. rewrite svg_rendered. reflexivity.
Qed.

(** X6. Rendering is idempotent.  When [renderCurrentScene] has returned,
    calling it again with the controls untouched returns too and leaves
    every field of the state with the value it had: the same chart or
    placeholder in the [svg], the same colour scale, although the scale is
    a mutable object the first call may have extended. *)
Theorem rerender_changes_nothing (s s1 : state N) :
  renderCurrentScene s = Returned tt s1 ->
  exists s2,
    renderCurrentScene s1 = Returned tt s2 /\ same_state s1 s2.
Proof.
  destruct renderScene1_effect as (c1 & _ & _ & H1).
  destruct renderScene2_effect as (c2 & _ & _ & H2).
  destruct renderScene3_effect as (c3 & _ & _ & H3).
  rewrite !renderCurrentScene_cases.
  destruct (data s) as [ds|] eqn:Hdata.
  2:{ intro Hrun. injection Hrun; intro Hs; subst s1.
      rewrite Hdata. exists s. split; [reflexivity | apply same_state_refl]. }
  destruct (Z.eqb (currentScene s) 1) eqn:E1;
    [|destruct (Z.eqb (currentScene s) 2) eqn:E2;
      [|destruct (Z.eqb (currentScene s) 3) eqn:E3]].
  - rewrite H1, Hdata. destruct (scene_hidden s 1) as [h|] eqn:Hh;
      [|discriminate].
    cbv zeta. intro Hrun. injection Hrun; intro Hs; subst s1.
    change (data (rendered _ _ _ s)) with (data s).
    change (currentScene (rendered _ _ _ s)) with (currentScene s).
    rewrite Hdata, E1, H1.
    change (data (rendered _ _ _ s)) with (data s).
    change (scene_hidden (rendered _ _ _ s) 1) with (scene_hidden s 1).
    rewrite Hdata, Hh. cbv zeta. eexists. split; [reflexivity|].
    apply (rendered_again 1 _ (rScale_of 1 (scene1_records s ds))
             (c1 (scene1_records s ds)) (scene1_records s ds) s).
  - rewrite H2, Hdata. destruct (scene_hidden s 2) as [h|] eqn:Hh;
      [|discriminate].
    cbv zeta. intro Hrun. injection Hrun; intro Hs; subst s1.
    change (data (rendered _ _ _ s)) with (data s).
    change (currentScene (rendered _ _ _ s)) with (currentScene s).
    rewrite Hdata, E1, E2, H2.
    change (data (rendered _ _ _ s)) with (data s).
    change (scene_hidden (rendered _ _ _ s) 2) with (scene_hidden s 2).
    rewrite Hdata, Hh. cbv zeta. eexists. split; [reflexivity|].
    apply (rendered_again 2 _ (rScale_of 2 (scene2_records s ds))
             (c2 (scene2_metric s) (scene2_records s ds))
             (scene2_records s ds) s).
  - rewrite H3, Hdata. destruct (scene_hidden s 3) as [h|] eqn:Hh;
      [|discriminate].
    cbv zeta. intro Hrun. injection Hrun; intro Hs; subst s1.
    change (data (rendered _ _ _ s)) with (data s).
    change (currentScene (rendered _ _ _ s)) with (currentScene s).
    rewrite Hdata, E1, E2, E3, H3.
    change (data (rendered _ _ _ s)) with (data s).
    change (scene_hidden (rendered _ _ _ s) 3) with (scene_hidden s 3).
    rewrite Hdata, Hh. cbv zeta. eexists. split; [reflexivity|].
    apply (rendered_again 3 _ (rScale_of 3 (scene3_records ds))
             (c3 (scene3_records ds)) (scene3_records ds) s).
  - intro Hrun. injection Hrun; intro Hs; subst s1.
    rewrite Hdata, E1, E2, E3. exists s.
    split; [reflexivity | apply same_state_refl].
Qed.

End SceneProperties.

(** ** The radius scale *)

Section Radius.
Context {N : Type} `{Number N}.

(** Every circle is painted with the radius the scale gives to the
    population of its record. *)
Lemma paint_radius (rScale : D3.continuous) (ds : list (observation N))
  (o : D3.ordinal) (c : circle N) :
  In c (fst (paint rScale o ds)) ->
  r c = D3.scale rScale (population (datum c)).
Proof.
  revert o. induction ds as [|d ds IH]; intro o; simpl; [intros []|].
  destruct (D3.ordinal_apply o (income_group d)) as [colour o1].
  specialize (IH o1). destruct (paint rScale o1 ds) as [cs o2].
  simpl in *. intros [<- | Hc]; [reflexivity | exact (IH Hc)].
Qed.

(** The two ends of an extent are values of the list. *)
Lemma extent_attained {A} (f : A -> jsnum N) (l : list A) (mn mx : N) :
  D3.extent l f = (Num mn, Num mx) ->
  (exists d, In d l /\ f d = Num mn) /\ (exists d, In d l /\ f d = Num mx).
Proof.
  unfold D3.extent.
  set (Q := fun x => exists d, In d l /\ f d = Num x).
  set (inv := fun acc : option (N * N) =>
                match acc with
                | Some (lo, hi) => Q lo /\ Q hi
                | None => True
                end).
  assert (Hfold : forall rest acc,
            incl rest l -> inv acc ->
            inv (fold_left (fun acc d => D3.extent_step acc (f d)) rest acc)).
  { induction rest as [|d rest IH]; intros acc Hincl Hacc; [exact Hacc|].
    cbn [fold_left]. apply IH; [intros e He; apply Hincl; right; exact He|].
    assert (Hd : In d l) by (apply Hincl; left; reflexivity).
    unfold D3.extent_step. destruct (f d) as [| |x] eqn:Hfd; try exact Hacc.
    assert (Hx : Q x) by (exists d; split; assumption).
    destruct acc as [[lo hi]|].
    - destruct Hacc as [Hlo Hhi]. simpl.
      split; [destruct (num_ltb x lo) | destruct (num_ltb hi x)]; assumption.
    - destruct (num_leb x x); simpl; [split; assumption | exact I]. }
  specialize (Hfold l None (incl_refl l) I).
  destruct (fold_left (fun acc d => D3.extent_step acc (f d)) l None)
    as [[lo hi]|]; [|discriminate].
  intro Heq. injection Heq as <- <-. exact Hfold.
Qed.

(** The value of a continuous scale at a number. *)
Lemma scale_at (rScale : D3.continuous) (p : N) :
  num_eqb p p = true ->
  D3.scale rScale (Num p)
  = Num (D3.bimap (D3.transform rScale (fst (D3.domain rScale)))
           (D3.transform rScale (snd (D3.domain rScale)))
           (fst (D3.range rScale)) (snd (D3.range rScale))
           (D3.transform rScale p)).
Proof.
  intro Hp. unfold D3.scale. cbn [is_nullish to_number orb].
  unfold isNaN. rewrite Hp. reflexivity.
Qed.

End Radius.

(** In a chart the circles are in the [svg] of the current scene, painted
    for the records of that scene with its radius scale. *)
Lemma rendered_circles {N} `{Number N} (k : Z) (s s' : state N) :
  (1 <= k <= 3)%Z ->
  currentScene s = k ->
  data s <> None ->
  renderCurrentScene s = Returned tt s' ->
  exists recs,
    circles_of (svg s' k)
    = fst (paint (rScale_of k recs) (colors_income s) recs).
Proof.
  intros Hk Hscene Hdata Hrun.
  destruct renderScene1_effect as (c1 & Hc1 & _ & H1).
  destruct renderScene2_effect as (c2 & Hc2 & _ & H2).
  destruct renderScene3_effect as (c3 & Hc3 & _ & H3).
  rewrite renderCurrentScene_cases in Hrun.
  destruct (data s) as [ds|] eqn:Hds; [|congruence].
  rewrite Hscene in Hrun.
  assert (Hcases : k = 1%Z \/ k = 2%Z \/ k = 3%Z) by lia.
  destruct Hcases as [-> | [-> | ->]]; cbn [Z.eqb Pos.eqb] in Hrun.
  - rewrite H1, Hds in Hrun. destruct (scene_hidden s 1); [|discriminate].
    cbv zeta in Hrun. injection Hrun; intro Hs; subst s'.
    rewrite svg_rendered. exists (scene1_records s ds).
    destruct (scene1_records s ds); [reflexivity | apply Hc1].
  - rewrite H2, Hds in Hrun. destruct (scene_hidden s 2); [|discriminate].
    cbv zeta in Hrun. injection Hrun; intro Hs; subst s'.
    rewrite svg_rendered. exists (scene2_records s ds).
    destruct (scene2_records s ds); [reflexivity | apply Hc2].
  - rewrite H3, Hds in Hrun. destruct (scene_hidden s 3); [|discriminate].
    cbv zeta in Hrun. injection Hrun; intro Hs; subst s'.
    rewrite svg_rendered. exists (scene3_records ds).
    destruct (scene3_records ds); [reflexivity | apply Hc3].
Qed.

Section RadiusBinary64.
Local Open Scope float_scope.

(** The population the scale is fed is a number, never [NaN]:
    [d.total_population || 1000000]. *)
Lemma population_number (d : observation float) :
  exists p, population d = Num p /\ PrimFloat.eqb p p = true.
Proof.
  unfold population, num_or.
  destruct (num_truthy (total_population d)) eqn:Htruthy.
  - destruct (total_population d) as [| |x]; try discriminate.
    exists x. split; [reflexivity|].
    unfold num_truthy in Htruthy. apply andb_prop in Htruthy as [_ Hx].
    exact Hx.
  - eexists. split; [reflexivity|]. vm_compute. reflexivity.
Qed.

Lemma truthy_number (c : float) :
  num_truthy (Num c) = true ->
  PrimFloat.eqb c 0 = false /\ PrimFloat.eqb c c = true.
Proof.
  unfold num_truthy. intro Hc. apply andb_prop in Hc as [Hzero Hself].
  split; [|exact Hself].
  change (num_eqb c (of_Z 0)) with (PrimFloat.eqb c 0) in Hzero.
  destruct (PrimFloat.eqb c 0); [discriminate | reflexivity].
Qed.

(** [normalize(a, b)]: where [b - a] is neither zero nor [NaN] it maps [x]
    to [(x - a) / (b - a)], which is a zero at [a] when [a] is finite and
    one at [b] when [b - a] is finite; where [b - a] is zero it maps every
    [x] to one half. *)
Lemma normalize_apart (a b x : float) :
  num_truthy (Num (b - a)) = true ->
  D3.normalize a b x = (x - a) / (b - a).
Proof.
  intro Hba. unfold D3.normalize. cbv zeta.
  change (num_sub b a) with (b - a). rewrite Hba. reflexivity.
Qed.

Lemma normalize_low (a b : float) :
  num_truthy (Num (b - a)) = true ->
  isFinite a = true ->
  D3.normalize a b a = 0 \/ D3.normalize a b a = -0.
Proof.
  intros Hba Ha. rewrite normalize_apart by exact Hba.
  destruct (@truthy_number (b - a) Hba) as [Hzero Hself].
  apply zero_div; [|exact Hzero | exact Hself].
  apply eqb_zero. exact Ha.
Qed.

Lemma normalize_high (a b : float) :
  num_truthy (Num (b - a)) = true ->
  isFinite (b - a) = true ->
  D3.normalize a b b = 1.
Proof.
  intros Hba Hfin. rewrite normalize_apart by exact Hba.
  destruct (@truthy_number (b - a) Hba) as [Hzero _].
  apply div_diag; [exact Hfin | exact Hzero].
Qed.

Lemma normalize_flat (a b x : float) :
  PrimFloat.eqb (b - a) 0 = true ->
  D3.normalize a b x = 0.5.
Proof.
  intro Hba. unfold D3.normalize. cbv zeta.
  change (num_sub b a) with (b - a).
  destruct (@eqb_zero (b - a) Hba) as [-> | ->]; vm_compute; reflexivity.
Qed.

(** The interpolator of each pixel range at the two ends and in the
    middle. *)
Lemma interpolate_ends (k : Z) (t : float) :
  (1 <= k <= 3)%Z ->
  let r0 := fst (pixel_range (N := float) k) in
  let r1 := snd (pixel_range (N := float) k) in
  (t = 0 \/ t = -0 -> D3.interpolateNumber r0 r1 t = r0)
  /\ (t = 1 -> D3.interpolateNumber r0 r1 t = r1)
  /\ (t = 0.5 -> D3.interpolateNumber r0 r1 t = (r0 + r1) / 2).
Proof.
  intros Hk r0 r1.
  assert (Hcases : k = 1%Z \/ k = 2%Z \/ k = 3%Z) by lia.
  unfold r0, r1.
  destruct Hcases as [-> | [-> | ->]];
    (split; [intros [-> | ->] | split; intros ->]);
    vm_compute; reflexivity.
Qed.

(** C4, amended.  After a render of scene [k], every circle in the [svg]
    has the radius that the square-root scale from the extent [[lo, hi]] of
    the populations drawn onto the pixel range [[r0, r1]] ([[3, 25]] in
    scene 1, [[4, 20]] in scenes 2 and 3) gives to the population of its
    record, and [lo] and [hi] are populations of records drawn.  With [a]
    and [b] the square roots of [lo] and [hi] as binary64 computes them,
    [a] not above [b]: where [b - a] is neither zero nor [NaN], the radius
    of a record of population [p] is [r0 (1 - t) + r1 t] for
    [t = (sqrt p - a) / (b - a)], which is exactly [r0] for a record of
    population [lo] when [a] is finite, and exactly [r1] for a record of
    population [hi] when [b - a] is finite; where [b - a] is zero, every
    radius is [(r0 + r1) / 2]. *)
Theorem rScale_affine_in_sqrt (k : Z) (s s' : state float) :
  (1 <= k <= 3)%Z ->
  currentScene s = k ->
  data s <> None ->
  renderCurrentScene s = Returned tt s' ->
  let cs := circles_of (svg s' k) in
  let lohi := population_extent (map datum cs) in
  let a := D3.transformSqrt (to_number (fst lohi)) in
  let b := D3.transformSqrt (to_number (snd lohi)) in
  let r0 := fst (pixel_range (N := float) k) in
  let r1 := snd (pixel_range (N := float) k) in
  let t (c : circle float) :=
    (D3.transformSqrt (to_number (population (datum c))) - a) / (b - a) in
  (forall c, In c cs ->
     r c = D3.scale (D3.scaleSqrt lohi (r0, r1)) (population (datum c)))
  /\ (cs <> [] ->
      (exists c, In c cs /\ population (datum c) = fst lohi)
      /\ (exists c, In c cs /\ population (datum c) = snd lohi))
  /\ ((b <? a) = false ->
      num_truthy (Num (b - a)) = true ->
      (forall c, In c cs -> r c = Num (r0 * (1 - t c) + r1 * t c))
      /\ (isFinite a = true ->
          forall c, In c cs -> population (datum c) = fst lohi ->
                    r c = Num r0)
      /\ (isFinite (b - a) = true ->
          forall c, In c cs -> population (datum c) = snd lohi ->
                    r c = Num r1))
  /\ ((b <? a) = false ->
      PrimFloat.eqb (b - a) 0 = true ->
      forall c, In c cs -> r c = Num ((r0 + r1) / 2)).
Proof.
  intros Hk Hscene Hdata Hrun cs lohi a b r0 r1 t.
  destruct (@rendered_circles float binary64 k s s' Hk Hscene Hdata Hrun)
    as [recs Hcs].
  fold cs in Hcs.
  assert (Hrecs : map datum cs = recs) by (rewrite Hcs; apply paint_datum).
  assert (Hscale : rScale_of k recs = D3.scaleSqrt lohi (r0, r1)).
  { unfold rScale_of, lohi, r0, r1. rewrite Hrecs.
    destruct (pixel_range k). reflexivity. }
  assert (Hradius : forall c, In c cs ->
            r c = D3.scale (D3.scaleSqrt lohi (r0, r1))
                    (population (datum c))).
  { intros c Hc. rewrite <- Hscale. rewrite Hcs in Hc.
    exact (@paint_radius float binary64 _ _ _ c Hc). }
  assert (Hvalue : (b <? a) = false ->
            forall c, In c cs ->
              exists p, population (datum c) = Num p
                /\ r c = Num (D3.interpolateNumber r0 r1
                                (D3.normalize a b (D3.transformSqrt p)))).
  { intros Hab c Hc.
    destruct (population_number (datum c)) as (p & Hp & Hpp).
    exists p. split; [exact Hp|].
    rewrite (Hradius c Hc), Hp, (@scale_at float binary64 _ p Hpp).
    cbn [D3.scaleSqrt D3.transform D3.domain D3.range D3.coerce_domain
         fst snd].
    fold a b. unfold D3.bimap.
    change (num_ltb b a) with (b <? a). rewrite Hab. reflexivity. }
  split; [exact Hradius|]. split; [|split].
  - intro Hne.
    assert (Hsome : exists lo hi, lohi = (Num lo, Num hi)).
    { unfold lohi, population_extent, D3.extent.
      destruct (map datum cs) as [|d ds] eqn:Hmap.
      - destruct cs; [congruence | discriminate].
      - cbn [fold_left].
        destruct (population_number d) as (p & Hp & Hpp).
        rewrite Hp. cbn [D3.extent_step].
        change (num_leb p p) with (PrimFloat.leb p p).
        rewrite (@eqb_refl_leb p Hpp).
        assert (Hkeep : forall rest lo hi,
                  exists lo' hi',
                    fold_left
                      (fun acc e => D3.extent_step acc (population e))
                      rest (Some (lo, hi))
                    = Some (lo', hi')).
        { induction rest as [|e rest IH]; intros lo hi;
            [exists lo, hi; reflexivity|].
          cbn [fold_left].
          destruct (population_number e) as (q & Hq & _). rewrite Hq.
          cbn [D3.extent_step]. apply IH. }
        destruct (Hkeep ds p p) as (lo & hi & ->).
        exists lo, hi. reflexivity. }
    destruct Hsome as (lo & hi & Hlohi).
    destruct (@extent_attained float binary64 _ population (map datum cs) lo hi
                Hlohi)
      as [(d1 & Hd1 & Hp1) (d2 & Hd2 & Hp2)].
    rewrite Hlohi. cbn [fst snd].
    apply in_map_iff in Hd1 as (c1 & <- & Hc1).
    apply in_map_iff in Hd2 as (c2 & <- & Hc2).
    split; [exists c1 | exists c2]; split; assumption.
  - intros Hab Hba. split; [|split].
    + intros c Hc. destruct (Hvalue Hab c Hc) as (p & Hp & Hr).
      rewrite Hr, (@normalize_apart a b _ Hba). unfold t. rewrite Hp.
      reflexivity.
    + intros Ha c Hc Hlo. destruct (Hvalue Hab c Hc) as (p & Hp & Hr).
      rewrite Hr. f_equal.
      assert (Hpa : D3.transformSqrt p = a).
      { unfold a. rewrite <- Hlo, Hp. reflexivity. }
      rewrite Hpa.
      apply (proj1 (@interpolate_ends k (D3.normalize a b a) Hk)).
      apply normalize_low; assumption.
    + intros Hfin c Hc Hhi. destruct (Hvalue Hab c Hc) as (p & Hp & Hr).
      rewrite Hr. f_equal.
      assert (Hpb : D3.transformSqrt p = b).
      { unfold b. rewrite <- Hhi, Hp. reflexivity. }
      rewrite Hpb.
      apply (proj1 (proj2 (@interpolate_ends k (D3.normalize a b b) Hk))).
      apply normalize_high; assumption.
  - intros Hab Hflat c Hc. destruct (Hvalue Hab c Hc) as (p & Hp & Hr).
    rewrite Hr. f_equal.
    apply (proj2 (proj2 (@interpolate_ends k
                           (D3.normalize a b (D3.transformSqrt p)) Hk))).
    apply normalize_flat. exact Hflat.
Qed.

End RadiusBinary64.

(** C4 as stated fails: with populations 4,000,000 and 1,000,000 in view
    the two circles of scene 1 get the radii 25 and 3, the ends of the
    range, not radii in ratio 2:1. *)
Lemma radii_not_in_ratio :
  let chart := svg (final (renderScene1 bubbles_page)) 1 in
  map (fun c => (total_population (datum c), r c)) (circles_of chart)
  = [ (Num 4000000%float, Num 25%float);
      (Num 1000000%float, Num 3%float) ]
  /\ (25 === of_Z 2 * 3)%js%float = false.
Proof. split; vm_compute; reflexivity. Qed.

(** ** Navigation, further *)

Section Clicks.
Context {N : Type} `{Number N}.

Lemma render_only_same_inputs (k : Z) (s s' : state N) :
  render_only k s s' -> same_inputs s s'.
Proof. intros (Hin & _). exact Hin. Qed.

(** [renderCurrentScene] returns whenever the current scene has its
    container, and then changes at most that scene's [svg] and the colour
    scale. *)
Lemma renderCurrentScene_returns (s : state N) :
  scene_hidden s (currentScene s) <> None ->
  exists s',
    renderCurrentScene s = Returned tt s'
    /\ render_only (currentScene s) s s'.
Proof.
  intro Hscene.
  destruct renderScene1_effect as (c1 & _ & _ & H1).
  destruct renderScene2_effect as (c2 & _ & _ & H2).
  destruct renderScene3_effect as (c3 & _ & _ & H3).
  rewrite renderCurrentScene_cases.
  destruct (data s) as [ds|] eqn:Hdata;
    [|exists s; split; [reflexivity | apply render_only_refl]].
  destruct (Z.eqb_spec (currentScene s) 1) as [E1|E1];
    [|destruct (Z.eqb_spec (currentScene s) 2) as [E2|E2];
      [|destruct (Z.eqb_spec (currentScene s) 3) as [E3|E3]]].
  - rewrite E1 in *. rewrite H1, Hdata.
    destruct (scene_hidden s 1); [|congruence].
    eexists. split; [reflexivity|].
    apply render_only_rendered, paint_grows.
  - rewrite E2 in *. rewrite H2, Hdata.
    destruct (scene_hidden s 2); [|congruence].
    eexists. split; [reflexivity|].
    apply render_only_rendered, paint_grows.
  - rewrite E3 in *. rewrite H3, Hdata.
    destruct (scene_hidden s 3); [|congruence].
    eexists. split; [reflexivity|].
    apply render_only_rendered, paint_grows.
  - exists s. split; [reflexivity | apply render_only_refl].
Qed.

(** [goToScene] step by step. *)
Lemma goToScene_steps (n : Z) (s : state N) :
  goToScene n s =
  match scene_hidden s (currentScene s) with
  | None => Thrown s
  | Some _ =>
      let s1 :=
        set_currentScene n
          (set_scene_hidden
             (fun j => if Z.eqb j (currentScene s) then Some true
                       else scene_hidden s j) s) in
      match scene_hidden s1 n with
      | None => Thrown s1
      | Some _ =>
          let s2 :=
            set_scene_hidden
              (fun j => if Z.eqb j n then Some false else scene_hidden s1 j)
              s1 in
          renderCurrentScene
            (set_navigation (Z.eqb n 1) (Z.eqb n 3)
               (map (fun index => Z.eqb (Z.of_nat index + 1) n)
                  (seq 0 (List.length (dot_active s))))
               s2)
      end
  end.
Proof.
  unfold goToScene, classList_hidden, updateNavigation.
  unfold bind, get, modify, throw.
  destruct (scene_hidden s (currentScene s)); [|reflexivity].
  cbn [currentScene set_currentScene scene_hidden set_scene_hidden].
  destruct (if Z.eqb n (currentScene s) then Some true else scene_hidden s n);
    reflexivity.
Qed.

(** The three ways [goToScene] ends. *)
Lemma goToScene_cases (n : Z) (s : state N) :
  match scene_hidden s (currentScene s), scene_hidden s n with
  | None, _ => goToScene n s = Thrown s
  | Some _, None =>
      exists s',
        goToScene n s = Thrown s'
        /\ currentScene s' = n
        /\ scene_hidden s' (currentScene s) = Some true
        /\ scene_hidden s' n = None
        /\ (forall k, k <> currentScene s ->
                      scene_hidden s' k = scene_hidden s k)
        /\ same_inputs s s'
        /\ (forall j, svg s' j = svg s j)
        /\ colors_income s' = colors_income s
  | Some _, Some _ =>
      exists s',
        goToScene n s = Returned tt s'
        /\ currentScene s' = n
        /\ scene_hidden s' n = Some false
        /\ (currentScene s <> n ->
            scene_hidden s' (currentScene s) = Some true)
        /\ (forall k, k <> n -> k <> currentScene s ->
                      scene_hidden s' k = scene_hidden s k)
        /\ prev_disabled s' = Z.eqb n 1
        /\ next_disabled s' = Z.eqb n 3
        /\ dot_active s'
           = map (fun index => Z.eqb (Z.of_nat index + 1) n)
               (seq 0 (List.length (dot_active s)))
        /\ same_inputs s s'
        /\ (forall j, j <> n -> svg s' j = svg s j)
        /\ extends (colors_income s) (colors_income s')
  end.
Proof.
  rewrite goToScene_steps.
  destruct (scene_hidden s (currentScene s)) as [h|] eqn:Hcur;
    [|reflexivity].
  cbv zeta. cbn [currentScene set_currentScene scene_hidden set_scene_hidden].
  assert (Hreturns :
    forall s4 : state N,
      currentScene s4 = n ->
      scene_hidden s4 n = Some false ->
      exists s',
        renderCurrentScene s4 = Returned tt s' /\ render_only n s4 s').
  { intros s4 Hc Hh.
    destruct (renderCurrentScene_returns s4) as (s' & Hrun & Hr).
    - rewrite Hc, Hh. discriminate.
    - exists s'. rewrite <- Hc. split; assumption. }
  destruct (Z.eqb_spec n (currentScene s)) as [Hn | Hn].
  - (* a jump to the current scene *)
    subst n. rewrite Hcur.
    match goal with
    | |- exists s', renderCurrentScene ?s4 = _ /\ _ =>
        destruct (Hreturns s4) as (s' & Hrun & Hr)
    end.
    { reflexivity. }
    { cbn. rewrite Z.eqb_refl. reflexivity. }
    exists s'. split; [exact Hrun|].
    destruct Hr as (Hin & (Hc & Hh & Hp & Hnx & Hd) & Hsvg & Hext).
    cbn in Hc, Hh, Hp, Hnx, Hd, Hsvg, Hext, Hin.
    split; [exact Hc|].
    split; [rewrite Hh, Z.eqb_refl; reflexivity|].
    split; [congruence|].
    split.
    { intros k Hk _. rewrite Hh.
      destruct (Z.eqb_spec k (currentScene s)); [contradiction|].
      reflexivity. }
    repeat (split; [assumption|]). exact Hext.
  - destruct (scene_hidden s n) as [h'|] eqn:Hnew.
    + match goal with
      | |- exists s', renderCurrentScene ?s4 = _ /\ _ =>
          destruct (Hreturns s4) as (s' & Hrun & Hr)
      end.
      { reflexivity. }
      { cbn. rewrite Z.eqb_refl. reflexivity. }
      exists s'. split; [exact Hrun|].
      destruct Hr as (Hin & (Hc & Hh & Hp & Hnx & Hd) & Hsvg & Hext).
      cbn in Hc, Hh, Hp, Hnx, Hd, Hsvg, Hext, Hin.
      split; [exact Hc|].
      split; [rewrite Hh, Z.eqb_refl; reflexivity|].
      split.
      { intros _. rewrite Hh.
        destruct (Z.eqb_spec (currentScene s) n); [congruence|].
        rewrite Z.eqb_refl. reflexivity. }
      split.
      { intros k Hk Hk'. rewrite Hh.
        destruct (Z.eqb_spec k n); [contradiction|].
        destruct (Z.eqb_spec k (currentScene s)); [contradiction|].
        reflexivity. }
      repeat (split; [assumption|]). exact Hext.
    + eexists. split; [reflexivity|]. cbn.
      rewrite Z.eqb_refl.
      split; [reflexivity|]. split; [reflexivity|].
      split.
      { destruct (Z.eqb_spec n (currentScene s)); [contradiction|].
        exact Hnew. }
      split.
      { intros k Hk.
        destruct (Z.eqb_spec k (currentScene s)); [contradiction|].
        reflexivity. }
      split; [|split; reflexivity].
      unfold same_inputs. repeat split; reflexivity.
Qed.


(** X7. [goToScene(n)] returns exactly when the page has the container of
    the current scene and the container of scene [n]; it throws
    otherwise. *)
Theorem goToScene_returns_iff (n : Z) (s : state N) :
  (exists s', goToScene n s = Returned tt s')
  <-> scene_hidden s (currentScene s) <> None /\ scene_hidden s n <> None.
Proof.
  pose proof (goToScene_cases n s) as Hcases.
  destruct (scene_hidden s (currentScene s)) as [h|];
    [destruct (scene_hidden s n) as [h'|]|].
  - destruct Hcases as (s' & Hrun & _). split.
    + intros _. split; discriminate.
    + intros _. exists s'. exact Hrun.
  - destruct Hcases as (s' & Hrun & _). split.
    + intros (s2 & Hs2). congruence.
    + intros [_ Hn]. congruence.
  - split.
    + intros (s2 & Hs2). congruence.
    + intros [Hc _]. congruence.
Qed.

(** X8. A jump to a scene the page does not have is not undone.  When the
    current scene has its container and scene [n] has none, [goToScene(n)]
    throws in a state where the pointer is already [n] and the scene that
    was current is hidden; the dataset, the controls, the [svg]s and the
    colour scale are untouched. *)
Theorem goToScene_failure_is_not_undone (n : Z) (s : state N) :
  scene_hidden s (currentScene s) <> None ->
  scene_hidden s n = None ->
  exists s',
    goToScene n s = Thrown s'
    /\ currentScene s' = n
    /\ scene_hidden s' (currentScene s) = Some true
    /\ scene_hidden s' n = None
    /\ (forall k, k <> currentScene s -> scene_hidden s' k = scene_hidden s k)
    /\ same_inputs s s'
    /\ (forall j, svg s' j = svg s j)
    /\ colors_income s' = colors_income s.
Proof.
  intros Hcur Hn. pose proof (goToScene_cases n s) as Hcases.
  destruct (scene_hidden s (currentScene s)) as [h|]; [|congruence].
  rewrite Hn in Hcases. exact Hcases.
Qed.

(** X9. What a completed jump leaves.  When [goToScene(n)] returns, the
    pointer is [n], scene [n] is shown, the scene that was current is
    hidden unless it is [n], no other container is touched, Previous is
    disabled exactly for [n = 1] and Next for [n = 3], the dot number [n]
    is the active one, and the [svg]s of the other scenes keep their
    content. *)
Theorem goToScene_postcondition (n : Z) (s s' : state N) :
  goToScene n s = Returned tt s' ->
  currentScene s' = n
  /\ scene_hidden s' n = Some false
  /\ (currentScene s <> n -> scene_hidden s' (currentScene s) = Some true)
  /\ (forall k, k <> n -> k <> currentScene s ->
                scene_hidden s' k = scene_hidden s k)
  /\ prev_disabled s' = Z.eqb n 1
  /\ next_disabled s' = Z.eqb n 3
  /\ List.length (dot_active s') = List.length (dot_active s)
  /\ (forall i, (i < List.length (dot_active s))%nat ->
                nth_error (dot_active s') i
                = Some (Z.eqb (Z.of_nat i + 1) n))
  /\ (forall j, j <> n -> svg s' j = svg s j).
Proof.
  intro Hrun. pose proof (goToScene_cases n s) as Hcases.
  destruct (scene_hidden s (currentScene s)) as [h|]; [|congruence].
  destruct (scene_hidden s n) as [h'|].
  - destruct Hcases
      as (s2 & Hs2 & Hc & Hshown & Hold & Hrest & Hp & Hnx & Hd & _ & Hsvg & _).
    rewrite Hs2 in Hrun. injection Hrun; intro Hs; subst s2.
    repeat (split; [assumption|]).
    split; [rewrite Hd, length_map, length_seq; reflexivity|].
    split; [|exact Hsvg].
    intros i Hi. rewrite Hd.
    rewrite nth_error_map, nth_error_seq.
    destruct (Nat.ltb_spec i (List.length (dot_active s))); [|lia].
    reflexivity.
  - destruct Hcases as (s2 & Hs2 & _). congruence.
Qed.

End Clicks.

Section Sessions.
Context {N : Type} `{Number N}.

Lemma same_inputs_refl (s : state N) : same_inputs s s.
Proof. unfold same_inputs. repeat split; reflexivity. Qed.

Lemma same_inputs_trans (s1 s2 s3 : state N) :
  same_inputs s1 s2 -> same_inputs s2 s3 -> same_inputs s1 s3.
Proof.
  unfold same_inputs.
  intros (A1 & A2 & A3 & A4 & A5) (B1 & B2 & B3 & B4 & B5).
  repeat split; congruence.
Qed.

(** What every handler leaves alone, however it ends. *)
Lemma goToScene_frame (n : Z) (s : state N) :
  same_inputs s (final (goToScene n s))
  /\ extends (colors_income s) (colors_income (final (goToScene n s))).
Proof.
  pose proof (goToScene_cases n s) as Hcases.
  destruct (scene_hidden s (currentScene s)) as [h|];
    [destruct (scene_hidden s n) as [h'|]|].
  - destruct Hcases as (s' & Hrun & _ & _ & _ & _ & _ & _ & _ & Hin & _ & Hext).
    rewrite Hrun. split; assumption.
  - destruct Hcases as (s' & Hrun & _ & _ & _ & _ & Hin & _ & Hcol).
    rewrite Hrun. simpl. rewrite Hcol.
    split; [exact Hin | apply extends_refl].
  - rewrite Hcases. split; [apply same_inputs_refl | apply extends_refl].
Qed.

Lemma handler_frame (a : action) (s : state N) :
  same_inputs s (final (handler a s))
  /\ extends (colors_income s) (colors_income (final (handler a s))).
Proof.
  destruct a as [| |n]; simpl.
  - unfold previousScene, bind, get.
    destruct (Z.ltb 1 (currentScene s)); [apply goToScene_frame|].
    split; [apply same_inputs_refl | apply extends_refl].
  - unfold nextScene, bind, get.
    destruct (Z.ltb (currentScene s) 3); [apply goToScene_frame|].
    split; [apply same_inputs_refl | apply extends_refl].
  - apply goToScene_frame.
Qed.

(** X10. The dataset and the controls are never written.  After any
    sequence of clicks on Previous, Next and the dots, whatever scene a dot
    asks for and whether handlers throw, [this.data] and the values of the
    two year sliders, the region selector and the metric selector are the
    ones the sequence started from; the colour scale has only grown at the
    end of its domain, so a key that had a colour has the same one. *)
Theorem clicks_never_write_the_inputs (actions : list action)
  (s : state N) :
  same_inputs s (clicks actions s)
  /\ extends (colors_income s) (colors_income (clicks actions s))
  /\ forall g i,
       D3.index_of g (D3.o_domain (colors_income s)) = Some i ->
       D3.ordinal_apply (colors_income (clicks actions s)) g
       = (D3.range_at (colors_income s) i, colors_income (clicks actions s)).
Proof.
  assert (Hframe :
    same_inputs s (clicks actions s)
    /\ extends (colors_income s) (colors_income (clicks actions s))).
  { unfold clicks. revert s.
    induction actions as [|a actions IH]; intro s; simpl.
    - split; [apply same_inputs_refl | apply extends_refl].
    - destruct (handler_frame a s) as [Hin Hext].
      destruct (IH (final (handler a s))) as [Hin' Hext'].
      split; [eapply same_inputs_trans | eapply extends_trans];
        eassumption. }
  destruct Hframe as [Hin Hext]. split; [exact Hin|].
  split; [exact Hext|].
  intros g i Hi. destruct Hext as (extra & Hdom & Hrange).
  unfold D3.ordinal_apply.
  rewrite Hdom, (index_of_app _ _ extra Hi).
  unfold D3.range_at. rewrite Hrange. reflexivity.
Qed.

End Sessions.

Section Consistency.
Context {N : Type} `{Number N}.

Lemma goToScene_consistent (n : Z) (s : state N) :
  consistent s -> (1 <= n <= 3)%Z ->
  exists s',
    goToScene n s = Returned tt s' /\ consistent s' /\ currentScene s' = n.
Proof.
  intros (Hcur & Hhidden & Hprev & Hnext & Hdots) Hn.
  pose proof (goToScene_cases n s) as Hcases.
  rewrite (Hhidden (currentScene s) Hcur), (Hhidden n Hn) in Hcases.
  destruct Hcases
    as (s' & Hrun & Hc & Hshown & Hold & Hrest & Hp & Hnx & Hd & _).
  exists s'. split; [exact Hrun|]. split; [|exact Hc].
  unfold consistent. rewrite Hc.
  split; [exact Hn|]. split; [|split; [exact Hp|split; [exact Hnx|]]].
  - intros k Hk. destruct (Z.eqb_spec k n) as [-> | Hkn].
    + exact Hshown.
    + destruct (Z.eq_dec k (currentScene s)) as [-> | Hkc].
      * apply Hold. congruence.
      * rewrite (Hrest k Hkn Hkc), (Hhidden k Hk).
        destruct (Z.eqb_spec k (currentScene s)); [contradiction|].
        reflexivity.
  - rewrite Hd, Hdots. reflexivity.
Qed.

(** Where a click sends the pointer: one step back or forward, stopping at
    1 and at 3, or to the scene of the dot. *)
Lemma handler_consistent (a : action) (s : state N) :
  consistent s -> in_range a ->
  exists s',
    handler a s = Returned tt s'
    /\ consistent s'
    /\ currentScene s'
       = match a with
         | Previous => Z.max 1 (currentScene s - 1)
         | Next => Z.min 3 (currentScene s + 1)
         | Dot n => n
         end.
Proof.
  intros Hs Ha. pose proof Hs as (Hcur & _).
  destruct a as [| |n]; simpl in *.
  - unfold previousScene, bind, get.
    destruct (Z.ltb_spec 1 (currentScene s)).
    + destruct (@goToScene_consistent (currentScene s - 1)%Z s Hs)
        as (s' & Hrun & Hs' & Hc); [lia|].
      exists s'. split; [exact Hrun|]. split; [exact Hs'|]. lia.
    + exists s. split; [reflexivity|]. split; [exact Hs|]. lia.
  - unfold nextScene, bind, get.
    destruct (Z.ltb_spec (currentScene s) 3).
    + destruct (@goToScene_consistent (currentScene s + 1)%Z s Hs)
        as (s' & Hrun & Hs' & Hc); [lia|].
      exists s'. split; [exact Hrun|]. split; [exact Hs'|]. lia.
    + exists s. split; [reflexivity|]. split; [exact Hs|]. lia.
  - apply goToScene_consistent; assumption.
Qed.

(** X11. On a page that shows one scene, the current one, with its buttons
    and dots in agreement, every sequence of clicks on Previous, Next and
    the dots of scenes 1 to 3 leaves such a page: the pointer in {1, 2, 3},
    the current scene the only one of the three not hidden, Previous
    disabled exactly in scene 1, Next exactly in scene 3, the current dot
    the only active one.  No handler throws on the way, and the next click
    moves the pointer one step back or forward, stopping at 1 and 3, or to
    the scene of the dot. *)
Theorem clicks_keep_the_page_consistent (actions : list action)
  (s : state N) :
  consistent s ->
  Forall in_range actions ->
  consistent (clicks actions s)
  /\ forall a, in_range a ->
       exists s',
         handler a (clicks actions s) = Returned tt s'
         /\ currentScene s'
            = match a with
              | Previous => Z.max 1 (currentScene (clicks actions s) - 1)
              | Next => Z.min 3 (currentScene (clicks actions s) + 1)
              | Dot n => n
              end.
Proof.
  intros Hs Hall.
  assert (Hkeep : consistent (clicks actions s)).
  { unfold clicks. revert s Hs.
    induction Hall as [|a actions Ha _ IH]; intros s Hs; simpl.
    - exact Hs.
    - destruct (@handler_consistent a s Hs Ha) as (s' & Hrun & Hs' & _).
      rewrite Hrun. simpl. apply IH. exact Hs'. }
  split; [exact Hkeep|].
  intros a Ha.
  destruct (@handler_consistent a _ Hkeep Ha) as (s' & Hrun & _ & Hc).
  exists s'. split; assumption.
Qed.

(** X12. Next then Previous, and Previous then Next, come back: from a
    consistent page not on the last scene, clicking Next and then Previous
    returns to the scene the clicks started from, and the same holds for
    Previous then Next when not on the first scene. *)
Theorem next_and_previous_undo_each_other (s : state N) :
  consistent s ->
  (currentScene s <> 3%Z ->
   currentScene (clicks [Next; Previous] s) = currentScene s)
  /\ (currentScene s <> 1%Z ->
      currentScene (clicks [Previous; Next] s) = currentScene s).
Proof.
  intro Hs. pose proof Hs as (Hcur & _).
  split; intro Hend; unfold clicks; simpl.
  - destruct (@handler_consistent Next s Hs I) as (s1 & Hrun1 & Hs1 & Hc1).
    simpl in Hrun1. rewrite Hrun1. simpl.
    destruct (@handler_consistent Previous s1 Hs1 I) as (s2 & Hrun2 & _ & Hc2).
    simpl in Hrun2. rewrite Hrun2. simpl. lia.
  - destruct (@handler_consistent Previous s Hs I) as (s1 & Hrun1 & Hs1 & Hc1).
    simpl in Hrun1. rewrite Hrun1. simpl.
    destruct (@handler_consistent Next s1 Hs1 I) as (s2 & Hrun2 & _ & Hc2).
    simpl in Hrun2. rewrite Hrun2. simpl. lia.
Qed.

End Consistency.

Lemma page_is_consistent (ds : option (list (observation float)))
  (yr rgn metric : string) :
  consistent (page ds yr rgn metric).
Proof.
  unfold consistent. simpl. split; [lia|]. split; [|repeat split].
  intros k Hk.
  assert (Hcases : k = 1%Z \/ k = 2%Z \/ k = 3%Z) by lia.
  destruct Hcases as [-> | [-> | ->]]; reflexivity.
Qed.

(** ** The filter engine, further *)

Section MoreFilters.
Context {N : Type} `{Number N}.

Lemma filter_weaker_Subseq {A} (p q : A -> bool) (l : list A) :
  (forall x, p x = true -> q x = true) ->
  Subseq (filter p l) (filter q l).
Proof.
  intro Hpq. induction l as [|a l IH]; simpl; [constructor|].
  destruct (p a) eqn:Hp.
  - rewrite (Hpq a Hp). constructor. exact IH.
  - destruct (q a); [constructor|]; exact IH.
Qed.

Lemma satisfies_without (dim : dimension) (fs : filters)
  (d : observation N) :
  satisfies fs d = true -> satisfies (without dim fs) d = true.
Proof.
  unfold satisfies, year_specified, region_specified, income_specified.
  intro Hsat. apply andb_prop in Hsat as [Hsat Hbasic].
  apply andb_prop in Hsat as [Hsat Hincome].
  apply andb_prop in Hsat as [Hyear Hregion].
  destruct dim; simpl; rewrite ?Hyear, ?Hregion, ?Hincome, ?Hbasic;
    reflexivity.
Qed.

(** X13. A criterion can only remove records: the output of [filterData]
    for a criteria object is the output for the same object without one of
    its dimensions, with some records dropped and the others in their
    order. *)
Theorem a_criterion_only_removes_records (dim : dimension) (fs : filters)
  (s s1 s2 : state N) (out out' : list (observation N)) :
  filterData fs s = Returned out s1 ->
  filterData (without dim fs) s = Returned out' s2 ->
  Subseq out out'.
Proof.
  rewrite !filterData_one_pass.
  destruct (data s) as [ds|]; [|discriminate].
  intros Hout Hout'. injection Hout; intros _ <-.
  injection Hout'; intros _ <-.
  apply filter_weaker_Subseq. intro d. apply satisfies_without.
Qed.

Lemma goToScene_before_load (n : Z) (s : state N) :
  data s = None ->
  data (final (goToScene n s)) = None
  /\ forall j, svg (final (goToScene n s)) j = svg s j.
Proof.
  intro Hdata. rewrite goToScene_steps.
  destruct (scene_hidden s (currentScene s)); [|split; auto].
  cbv zeta.
  match goal with
  | |- context [match ?x with Some _ => _ | None => _ end] => destruct x
  end; [|split; auto].
  rewrite renderCurrentScene_cases. cbn [data set_navigation set_scene_hidden
    set_currentScene]. rewrite Hdata. split; auto.
Qed.

(** X14. Before the dataset is loaded nothing is drawn and the missing
    data throws nowhere in the navigation: with [this.data] still [null],
    [renderCurrentScene] returns at once leaving the state as it is, and
    after any sequence of clicks every [svg] has the content it had and the
    data is still [null].  [filterData], called directly, throws. *)
Theorem nothing_is_drawn_before_load (actions : list action) (s : state N)
  (fs : filters) :
  data s = None ->
  renderCurrentScene s = Returned tt s
  /\ filterData fs s = Thrown s
  /\ data (clicks actions s) = None
  /\ forall j, svg (clicks actions s) j = svg s j.
Proof.
  intro Hdata.
  split; [rewrite renderCurrentScene_cases, Hdata; reflexivity|].
  split; [rewrite filterData_one_pass, Hdata; reflexivity|].
  unfold clicks. revert s Hdata.
  induction actions as [|a actions IH]; intros s Hdata; simpl.
  - split; auto.
  - assert (Hstep : data (final (handler a s)) = None
                    /\ forall j, svg (final (handler a s)) j = svg s j).
    { destruct a as [| |n]; simpl.
      - unfold previousScene, bind, get.
        destruct (Z.ltb 1 (currentScene s));
          [apply goToScene_before_load; exact Hdata | split; auto].
      - unfold nextScene, bind, get.
        destruct (Z.ltb (currentScene s) 3);
          [apply goToScene_before_load; exact Hdata | split; auto].
      - apply goToScene_before_load. exact Hdata. }
    destruct Hstep as [Hd Hsvg]. destruct (IH _ Hd) as [Hd' Hsvg'].
    split; [exact Hd'|]. intro j. rewrite Hsvg'. apply Hsvg.
Qed.

End MoreFilters.

(** ** A missing key in the trend line *)

Section MissingKeys.
Local Open Scope float_scope.

(** Once a record without a number in one of the two columns has gone
    through the loop, the numerator is [NaN], and stays so. *)
Lemma deviations_poisoned (xField yField : string)
  (xMean yMean : jsnum float) (l : list (observation float))
  (d : observation float) :
  In d l ->
  field xField d = Undefined \/ field yField d = Undefined ->
  forall acc : float * float,
    fst (fold_left
           (fun '(numerator, denominator) e =>
              let xDiff := to_number (field xField e) - to_number xMean in
              let yDiff := to_number (field yField e) - to_number yMean in
              (numerator + xDiff * yDiff, denominator + xDiff * xDiff))
           l acc) = nan.
Proof.
  intros Hd Hmissing.
  assert (Hstays : forall (l' : list (observation float)) (dn : float),
    fst (fold_left
           (fun '(numerator, denominator) e =>
              let xDiff := to_number (field xField e) - to_number xMean in
              let yDiff := to_number (field yField e) - to_number yMean in
              (numerator + xDiff * yDiff, denominator + xDiff * xDiff))
           l' (nan, dn)) = nan).
  { induction l' as [|e l' IH]; intro dn; [reflexivity|].
    cbn [fold_left]. rewrite nan_add_l. apply IH. }
  induction l as [|e l IH]; intros [nm dn]; [contradiction|].
  cbn [fold_left]. destruct Hd as [-> | Hd]; [|apply IH; exact Hd].
  destruct Hmissing as [Hx | Hy].
  - rewrite Hx. cbn [to_number]. change NaN with nan.
    rewrite nan_sub_l, nan_mul_l, nan_add_r. apply Hstays.
  - rewrite Hy. cbn [to_number]. change NaN with nan.
    rewrite nan_sub_l, nan_mul_r, nan_add_r. apply Hstays.
Qed.

(** X15. A missing key is not a missing value for [addTrendLine].  A record
    whose x or y column is [undefined] (the key is absent) while the other
    is not [null] passes the test [!== null], is counted among the points,
    and makes the slope and the intercept [NaN], whatever the other
    records hold. *)
Theorem a_missing_key_spoils_the_fit (data : list (observation float))
  (xField yField : string) (d : observation float) :
  In d data ->
  (field xField d = Undefined /\ field yField d <> Null)
  \/ (field yField d = Undefined /\ field xField d <> Null) ->
  In d (trend_points data xField yField)
  /\ regression (trend_points data xField yField) xField yField
     = (nan, nan).
Proof.
  intros Hd Hmissing.
  assert (Hvalid : In d (trend_points data xField yField)).
  { unfold trend_points. apply filter_In. split; [exact Hd|].
    destruct Hmissing as [[Hx Hy] | [Hy Hx]].
    - rewrite Hx. destruct (field yField d); [reflexivity | congruence
                                              | reflexivity].
    - rewrite Hy. destruct (field xField d); [reflexivity | congruence
                                              | reflexivity]. }
  split; [exact Hvalid|].
  assert (Hundef : field xField d = Undefined \/ field yField d = Undefined)
    by (destruct Hmissing as [[Hx _] | [Hy _]]; [left | right]; assumption).
  unfold regression, deviations.
  pose proof (@deviations_poisoned xField yField
                (D3.mean (trend_points data xField yField) (field xField))
                (D3.mean (trend_points data xField yField) (field yField))
                (trend_points data xField yField) d Hvalid Hundef
                (of_Z 0, of_Z 0)) as Hnum.
  destruct (fold_left _ _ _) as [numerator denominator].
  simpl in Hnum. subst numerator.
  change (num_div nan denominator) with (nan / denominator).
  rewrite nan_div_l.
  change (num_mul nan ?m) with (nan * m). rewrite nan_mul_l.
  change (num_sub ?m nan) with (m - nan). rewrite nan_sub_r.
  reflexivity.
Qed.

End MissingKeys.

(** ** The annotations of scene 1 *)

Section AnnotationProperties.
Context {N : Type} `{Number N}.

Lemma insert_length {A} (compareFn : A -> A -> N) (a : A) (l : list A) :
  List.length (insert compareFn a l) = S (List.length l).
Proof.
  induction l as [|b l IH]; simpl; [reflexivity|].
  destruct (num_ltb (of_Z 0) (compareFn a b)); simpl; [rewrite IH|];
    reflexivity.
Qed.

Lemma sort_length {A} (compareFn : A -> A -> N) (l : list A) :
  List.length (sort compareFn l) = List.length l.
Proof.
  induction l as [|a l IH]; [reflexivity|].
  change (sort compareFn (a :: l))
    with (insert compareFn a (sort compareFn l)).
  rewrite insert_length, IH. reflexivity.
Qed.

Lemma insert_In {A} (compareFn : A -> A -> N) (a x : A) (l : list A) :
  In x (insert compareFn a l) <-> x = a \/ In x l.
Proof.
  induction l as [|b l IH]; simpl; [intuition congruence|].
  destruct (num_ltb (of_Z 0) (compareFn a b)); simpl;
    [rewrite IH|]; intuition congruence.
Qed.

Lemma sort_In {A} (compareFn : A -> A -> N) (x : A) (l : list A) :
  In x (sort compareFn l) <-> In x l.
Proof.
  induction l as [|a l IH]; [simpl; tauto|].
  change (sort compareFn (a :: l))
    with (insert compareFn a (sort compareFn l)).
  rewrite insert_In, IH. simpl. intuition congruence.
Qed.

(** Reading [sorted[0]] of a group that is not empty. *)
Lemma with_first_sorted {A B} (compareFn : A -> A -> N) (l : list A)
  (k : A -> B) :
  Nat.ltb 0 (List.length l) = true ->
  exists example,
    with_first (sort compareFn l) k = Some (k example) /\ In example l.
Proof.
  intro Hlen. apply Nat.ltb_lt in Hlen.
  destruct (sort compareFn l) as [|e rest] eqn:Hsort.
  - apply (f_equal (@List.length _)) in Hsort.
    rewrite sort_length in Hsort. simpl in Hsort. lia.
  - exists e. split; [reflexivity|].
    apply (sort_In compareFn). rewrite Hsort. left. reflexivity.
Qed.

Lemma empty_group {A} (l : list A) :
  Nat.ltb 0 (List.length l) = false <-> l = [].
Proof.
  destruct l; simpl; split; intro Hl; try reflexivity; discriminate.
Qed.

(** What the first and the second half append, case by case. *)
Lemma first_annotation_cases (data : list (observation N)) :
  let high := upperMiddleIncomeHighHIV data in
  let moderate := upperMiddleIncomeModerateHIV data in
  let south_africa_high :=
    match find (named "South Africa") data with
    | Some sa => num_gt (hiv_incidence_rate sa) (of_Z 1)
    | None => false
    end in
  exists out,
    first_annotation data = Some out
    /\ (out = [] <-> high = [] /\ moderate = [] /\ south_africa_high = false).
Proof.
  intros high moderate south_africa_high.
  unfold first_annotation. fold high moderate. cbv zeta.
  assert (Hrest :
    exists out,
      (if Nat.ltb 0 (List.length high)
       then with_first (sort by_hiv_descending high)
              (fun example =>
                 (if Nat.ltb 0 (List.length high)
                  then [Rect high "#059669"] else [])
                 ++ [Text example 20 (-20) "Upper middle income does not";
                     Text example 20 (-5) "guarantee low HIV incidence"])
       else if Nat.ltb 0 (List.length moderate)
       then with_first (sort by_hiv_descending moderate)
              (fun example =>
                 (if Nat.ltb 0 (List.length high)
                  then [Rect high "#059669"] else [])
                 ++ [Text example 20 (-10)
                       "Income level alone doesn't predict health outcomes"])
       else Some (if Nat.ltb 0 (List.length high)
                  then [Rect high "#059669"] else []))
      = Some out
      /\ (out = [] <-> high = [] /\ moderate = [])).
  { destruct (Nat.ltb 0 (List.length high)) eqn:Hhigh.
    - destruct (with_first_sorted by_hiv_descending high
                  (fun example =>
                     [Rect high "#059669"]
                     ++ [Text example 20 (-20) "Upper middle income does not";
                         Text example 20 (-5) "guarantee low HIV incidence"])
                  Hhigh) as (e & He & _).
      eexists. split; [exact He|]. split; [discriminate|].
      intros [Hempty _]. apply empty_group in Hempty. congruence.
    - apply empty_group in Hhigh.
      destruct (Nat.ltb 0 (List.length moderate)) eqn:Hmod.
      + destruct (with_first_sorted by_hiv_descending moderate
                    (fun example =>
                       [] ++ [Text example 20 (-10)
                                "Income level alone doesn't predict health outcomes"])
                    Hmod) as (e & He & _).
        eexists. split; [exact He|]. split; [discriminate|].
        intros [_ Hempty]. apply empty_group in Hempty. congruence.
      + apply empty_group in Hmod. exists []. split; [reflexivity|].
        split; [intros _; split; assumption | reflexivity]. }
  unfold south_africa_high.
  destruct (find (named "South Africa") data) as [sa|].
  - destruct (num_gt (hiv_incidence_rate sa) (of_Z 1)).
    + eexists. split; [reflexivity|]. split.
      * intro Hnil. apply app_eq_nil in Hnil as [_ Hnil]. discriminate.
      * intros (_ & _ & Hfalse). discriminate.
    + destruct Hrest as (out & Hout & Hiff). exists out.
      split; [exact Hout|]. rewrite Hiff. tauto.
  - destruct Hrest as (out & Hout & Hiff). exists out.
    split; [exact Hout|]. rewrite Hiff. tauto.
Qed.

Lemma second_annotation_cases (data : list (observation N)) :
  let low := lowIncomeLowHIV data in
  let afghanistan_low :=
    match find (named "Afghanistan") data with
    | Some af => num_lt (hiv_incidence_rate af) (dec 5 1)
    | None => false
    end in
  exists out,
    second_annotation data = Some out
    /\ (out = [] <-> low = [] /\ afghanistan_low = false).
Proof.
  intros low afghanistan_low.
  unfold second_annotation. fold low. cbv zeta.
  assert (Hrest :
    exists out,
      (if Nat.ltb 0 (List.length low)
       then with_first (sort by_hiv_ascending low)
              (fun example =>
                 (if Nat.ltb 0 (List.length low)
                  then [Rect low "#dc2626"] else [])
                 ++ [Text example (-150) 15
                       "Low income doesn't necessarily mean high HIV incidence"])
       else Some (if Nat.ltb 0 (List.length low)
                  then [Rect low "#dc2626"] else []))
      = Some out
      /\ (out = [] <-> low = [])).
  { destruct (Nat.ltb 0 (List.length low)) eqn:Hlow.
    - destruct (with_first_sorted by_hiv_ascending low
                  (fun example =>
                     [Rect low "#dc2626"]
                     ++ [Text example (-150) 15
                           "Low income doesn't necessarily mean high HIV incidence"])
                  Hlow) as (e & He & _).
      eexists. split; [exact He|]. split; [discriminate|].
      intro Hempty. apply empty_group in Hempty. congruence.
    - apply empty_group in Hlow. exists []. split; [reflexivity|].
      split; [intros _; assumption | reflexivity]. }
  unfold afghanistan_low.
  destruct (find (named "Afghanistan") data) as [af|].
  - destruct (num_lt (hiv_incidence_rate af) (dec 5 1)).
    + eexists. split; [reflexivity|]. split.
      * intro Hnil. apply app_eq_nil in Hnil as [_ Hnil]. discriminate.
      * intros (_ & Hfalse). discriminate.
    + destruct Hrest as (out & Hout & Hiff). exists out.
      split; [exact Hout|]. rewrite Hiff. tauto.
  - destruct Hrest as (out & Hout & Hiff). exists out.
    split; [exact Hout|]. rewrite Hiff. tauto.
Qed.

(** X16. [addScene1Annotations] never throws, although it reads
    [sorted[0]] of arrays: each such read is behind a test that the array
    is not empty, and sorting keeps the length.  And it appends nothing at
    all exactly when no pattern matches: no upper middle income record
    with an HIV rate above 1.0 or above 0.5, no South Africa above 1.0,
    no low income record below 0.2 and no Afghanistan below 0.5. *)
Theorem annotations_are_skipped_silently (data : list (observation N)) :
  exists out,
    addScene1Annotations data = Some out
    /\ (out = [] <->
        upperMiddleIncomeHighHIV data = []
        /\ upperMiddleIncomeModerateHIV data = []
        /\ match find (named "South Africa") data with
           | Some sa => num_gt (hiv_incidence_rate sa) (of_Z 1)
           | None => false
           end = false
        /\ lowIncomeLowHIV data = []
        /\ match find (named "Afghanistan") data with
           | Some af => num_lt (hiv_incidence_rate af) (dec 5 1)
           | None => false
           end = false).
Proof.
  destruct (first_annotation_cases data) as (first & Hfirst & Hiff1).
  destruct (second_annotation_cases data) as (second & Hsecond & Hiff2).
  cbv zeta in Hiff1, Hiff2.
  exists (first ++ second). unfold addScene1Annotations.
  rewrite Hfirst, Hsecond. split; [reflexivity|]. split.
  - intro Hnil. apply app_eq_nil in Hnil as [H1 H2].
    apply Hiff1 in H1. apply Hiff2 in H2. tauto.
  - intros (A & B & C & D & E).
    rewrite (proj2 Hiff1 (conj A (conj B C))), (proj2 Hiff2 (conj D E)).
    reflexivity.
Qed.

End AnnotationProperties.

(* ================================================================== *)
(** * The properties on the sample pages *)
(* ================================================================== *)

Section Instances.
Local Open Scope string_scope.

Lemma loaded_has_scene (k : Z) :
  (1 <= k <= 3)%Z -> scene_hidden loaded k <> None.
Proof.
  intro Hk. assert (Hcases : k = 1%Z \/ k = 2%Z \/ k = 3%Z) by lia.
  destruct Hcases as [-> | [-> | ->]]; discriminate.
Qed.

Lemma bubbles_page_renders :
  renderCurrentScene bubbles_page
  = Returned tt (final (renderCurrentScene bubbles_page)).
Proof. vm_compute. reflexivity. Qed.

Lemma rScale_affine_in_sqrt_witness :
  renderCurrentScene bubbles_page
  = Returned tt (final (renderCurrentScene bubbles_page))
  /\ forall c,
       In c (circles_of (svg (final (renderCurrentScene bubbles_page)) 1)) ->
       (population (datum c) = Num 1000000%float -> r c = Num 3%float)
       /\ (population (datum c) = Num 4000000%float -> r c = Num 25%float).
Proof.
  split; [exact bubbles_page_renders|].
  destruct (@rScale_affine_in_sqrt 1 bubbles_page _
              ltac:(lia) eq_refl ltac:(discriminate) bubbles_page_renders)
    as (_ & _ & Hends & _). cbv zeta in Hends.
  destruct Hends as (_ & Hlow & Hhigh);
    [vm_compute; reflexivity | vm_compute; reflexivity |].
  intros c Hc. split; intro Hp.
  - apply (Hlow ltac:(vm_compute; reflexivity) c Hc). rewrite Hp.
    vm_compute. reflexivity.
  - apply (Hhigh ltac:(vm_compute; reflexivity) c Hc). rewrite Hp.
    vm_compute. reflexivity.
Defined.

(** Populations [2^52 + 1] and [2^52] differ, but their square roots are
    one binary64 number: the domain of the scale has no width and both
    circles get the middle radius, 14. *)
Example twins_get_the_middle_radius :
  let chart := svg (final (renderCurrentScene twins_page)) 1 in
  map (fun c => (total_population (datum c), r c)) (circles_of chart)
  = [ (Num 4503599627370497%float, Num 14%float);
      (Num 4503599627370496%float, Num 14%float) ]
  /\ population_extent (map datum (circles_of chart))
     = (Num 4503599627370496%float, Num 4503599627370497%float)
  /\ D3.transformSqrt 4503599627370497%float
     = D3.transformSqrt 4503599627370496%float.
Proof. cbv zeta. repeat split; vm_compute; reflexivity. Qed.

Lemma loaded_renders_scene3 :
  renderScene3 loaded = Returned tt (final (renderScene3 loaded)).
Proof. vm_compute. reflexivity. Qed.

Lemma scenes_draw_their_records_witness :
  data loaded = Some getEmbeddedData
  /\ map datum (circles_of (svg (final (renderScene3 loaded)) 3))
     = scene3_records getEmbeddedData
  /\ (is_placeholder (svg (final (renderScene3 loaded)) 3) = true
      <-> scene3_records (N := float) getEmbeddedData = []).
Proof.
  split; [reflexivity|].
  destruct (@scenes_draw_their_records float _ loaded getEmbeddedData eq_refl)
    as (_ & _ & Hscene3).
  apply Hscene3. exact loaded_renders_scene3.
Defined.

Lemma scene3_ignores_the_controls_witness :
  education_metric loaded_literacy <> education_metric loaded
  /\ svg (final (renderScene3 loaded_literacy)) 3
     = svg (final (renderScene3 loaded)) 3.
Proof.
  split; [discriminate|].
  apply (@scene3_ignores_the_controls float _ loaded loaded_literacy
           getEmbeddedData eq_refl eq_refl eq_refl);
    discriminate.
Defined.

Lemma loaded_renders :
  renderCurrentScene loaded
  = Returned tt (final (renderCurrentScene loaded)).
Proof. vm_compute. reflexivity. Qed.

Lemma rerender_changes_nothing_witness :
  renderCurrentScene loaded
  = Returned tt (final (renderCurrentScene loaded))
  /\ exists s2,
       renderCurrentScene (final (renderCurrentScene loaded)) = Returned tt s2
       /\ same_state (final (renderCurrentScene loaded)) s2.
Proof.
  split; [exact loaded_renders|].
  exact (@rerender_changes_nothing float _ loaded _ loaded_renders).
Defined.

Lemma goToScene_failure_is_not_undone_witness :
  scene_hidden loaded (currentScene loaded) <> None
  /\ scene_hidden loaded 4 = None
  /\ exists s',
       goToScene 4 loaded = Thrown s'
       /\ currentScene s' = 4%Z
       /\ scene_hidden s' 1 = Some true.
Proof.
  split; [discriminate|]. split; [reflexivity|].
  destruct (@goToScene_failure_is_not_undone float _ 4 loaded
              ltac:(discriminate) eq_refl)
    as (s' & Hrun & Hscene & Hhidden & _).
  exists s'. split; [exact Hrun|]. split; [exact Hscene | exact Hhidden].
Defined.

Lemma loaded_goes_to_scene2 :
  goToScene 2 loaded = Returned tt (final (goToScene 2 loaded)).
Proof. vm_compute. reflexivity. Qed.

Lemma goToScene_postcondition_witness :
  goToScene 2 loaded = Returned tt (final (goToScene 2 loaded))
  /\ currentScene (final (goToScene 2 loaded)) = 2%Z
  /\ scene_hidden (final (goToScene 2 loaded)) 2 = Some false
  /\ scene_hidden (final (goToScene 2 loaded)) 1 = Some true.
Proof.
  split; [exact loaded_goes_to_scene2|].
  destruct (@goToScene_postcondition float _ 2 loaded _
              loaded_goes_to_scene2)
    as (Hscene & Hshown & Hhidden & _).
  split; [exact Hscene|]. split; [exact Hshown|].
  apply Hhidden. discriminate.
Defined.

Lemma clicks_keep_the_page_consistent_witness :
  consistent loaded
  /\ Forall in_range [Next; Dot 3; Previous; Previous; Previous]
  /\ consistent (clicks [Next; Dot 3; Previous; Previous; Previous] loaded).
Proof.
  assert (Hrange : Forall in_range
                     [Next; Dot 3; Previous; Previous; Previous]).
  { repeat constructor; simpl; lia. }
  split; [apply page_is_consistent|]. split; [exact Hrange|].
  exact (proj1 (@clicks_keep_the_page_consistent float _ _ loaded
                  (page_is_consistent _ _ _ _) Hrange)).
Defined.

Lemma next_and_previous_undo_each_other_witness :
  consistent loaded
  /\ currentScene loaded <> 3%Z
  /\ currentScene (clicks [Next; Previous] loaded) = currentScene loaded.
Proof.
  split; [apply page_is_consistent|]. split; [discriminate|].
  destruct (@next_and_previous_undo_each_other float _ loaded
              (page_is_consistent _ _ _ _)) as [Hback _].
  apply Hback. discriminate.
Defined.

Lemma loaded_filters (fs : filters) :
  filterData fs loaded
  = Returned (filter (satisfies fs) getEmbeddedData) loaded.
Proof. rewrite filterData_one_pass. reflexivity. Qed.

Lemma a_criterion_only_removes_records_witness :
  filterData sub_saharan_2021 loaded
  = Returned (filter (satisfies sub_saharan_2021) getEmbeddedData) loaded
  /\ Subseq (filter (satisfies sub_saharan_2021) getEmbeddedData)
       (filter (satisfies (without Region sub_saharan_2021))
          (getEmbeddedData (N := float))).
Proof.
  split; [apply loaded_filters|].
  exact (@a_criterion_only_removes_records float _ Region sub_saharan_2021
           loaded _ _ _ _ (loaded_filters _) (loaded_filters _)).
Defined.

Lemma nothing_is_drawn_before_load_witness :
  data unloaded = None
  /\ forall j, svg (clicks [Next; Dot 3; Previous] unloaded) j = None.
Proof.
  split; [reflexivity|].
  destruct (@nothing_is_drawn_before_load float _ [Next; Dot 3; Previous]
              unloaded all_years eq_refl)
    as (_ & _ & _ & Hsvg).
  exact Hsvg.
Defined.

Lemma a_missing_key_spoils_the_fit_witness :
  field "adult_literacy_rate" no_literacy = Undefined
  /\ In no_literacy
       (trend_points on_line_and_one_without_x "adult_literacy_rate"
          "condom_use_average")
  /\ regression
       (trend_points on_line_and_one_without_x "adult_literacy_rate"
          "condom_use_average")
       "adult_literacy_rate" "condom_use_average"
     = (nan, nan).
Proof.
  split; [reflexivity|].
  apply (@a_missing_key_spoils_the_fit on_line_and_one_without_x
           "adult_literacy_rate" "condom_use_average" no_literacy).
  - unfold on_line_and_one_without_x. apply in_or_app. right. left.
    reflexivity.
  - left. split; [reflexivity | discriminate].
Defined.

End Instances.
